(** * analyze_comparison_results.py: the SLA-PSO analysis script

    A shallow embedding of the script [analyze_comparison_results.py]
    and the properties of its cleaning, filtering, aggregation and
    control flow.

    Modelling conventions.
    - A pandas [DataFrame] is a column store: an index (the row labels
      that survive the boolean-mask selections) and named columns, each
      a [Series] with a dtype and a value per row label.
    - Column names need not be distinct: line 29 trims them, so two
      header names that differ in surrounding white space become one
      name. [df[name]] is then a DataFrame; a table operation reads the
      first column of a name, and the script raises before it reads a
      name that several columns carry.
    - A cell is missing ([NaN]), text ([Str]) or a number ([Num]).
      Numbers are exact rationals in canonical form ([Qc]); binary
      floating-point rounding is not modelled.
    - Characters are code points below 256.
    - The script is a sequence of top-level statements; it is embedded
      as a state-and-exception monad over the module-level variables and
      a chronological trace of the external effects (directory creation,
      the CSV read, console lines, plot calls, saved files).
    - Paths are joined with the POSIX separator.
    - What the libraries decide is an input of the model: the result of
      [pd.read_csv] and whether a plot call raises come from the [World];
      the numeric-literal reader behind [pd.to_numeric] is a parameter. *)

From Stdlib Require Import List String Ascii Bool Arith ZArith QArith Qcanon Lia.
From Stdlib Require Import Sorted.
Import ListNotations.
Local Close Scope Q_scope.
Local Open Scope string_scope.
Local Open Scope list_scope.

(** ** Text *)

Module Text.

(** [str.isspace] on one code point below 256. *)
Definition is_space (c : ascii) : bool :=
  let n := nat_of_ascii c in
  (((9 <=? n) && (n <=? 13)) || ((28 <=? n) && (n <=? 32))
   || (n =? 133) || (n =? 160))%nat.

Fixpoint lstrip (s : string) : string :=
  match s with
  | EmptyString => EmptyString
  | String c r => if is_space c then lstrip r else s
  end.

Fixpoint rstrip (s : string) : string :=
  match s with
  | EmptyString => EmptyString
  | String c r =>
      match rstrip r with
      | EmptyString => if is_space c then EmptyString else String c EmptyString
      | r' => String c r'
      end
  end.

(** [s.strip()] *)
Definition strip (s : string) : string := rstrip (lstrip s).

(** [s.replace(c, rep)] for a one-character pattern. *)
Fixpoint replace (c : ascii) (rep : string) (s : string) : string :=
  match s with
  | EmptyString => EmptyString
  | String d r =>
      if Ascii.eqb c d then rep ++ replace c rep r
      else String d (replace c rep r)
  end.

(** Every character of the string is white space. *)
Fixpoint all_space (s : string) : bool :=
  match s with
  | EmptyString => true
  | String c r => is_space c && all_space r
  end.

End Text.

(** ** Numbers *)

Definition num (z : Z) : Qc := Q2Qc (inject_Z z).
Definition Qc_eqb (x y : Qc) : bool := Qeq_bool x y.
Definition Qc_ltb (x y : Qc) : bool :=
  match Qccompare x y with Lt => true | _ => false end.

Definition Qc_sum (l : list Qc) : Qc := fold_right Qcplus (num 0) l.

(** Arithmetic mean of a non-empty list. *)
Definition Qc_mean (l : list Qc) : Qc :=
  Qcdiv (Qc_sum l) (num (Z.of_nat (List.length l))).

(** ** Tables *)

Inductive Cell : Type :=
| NaN
| Str (s : string)
| Num (q : Qc).

Definition is_nan (c : Cell) : bool :=
  match c with NaN => true | _ => false end.

Definition Cell_eqb (a b : Cell) : bool :=
  match a, b with
  | NaN, NaN => true
  | Str s, Str t => String.eqb s t
  | Num p, Num q => Qc_eqb p q
  | _, _ => false
  end.

Inductive Dtype : Type := DObject | DNumeric.

Record Series : Type := mkSeries {
  dtype : Dtype;
  values : nat -> Cell
}.

Record DataFrame : Type := mkDataFrame {
  index : list nat;
  columns : list (string * Series)
}.

Fixpoint lookup_col (name : string) (cols : list (string * Series))
  : option Series :=
  match cols with
  | [] => None
  | (n, s) :: r => if String.eqb name n then Some s else lookup_col name r
  end.

(** [df.columns] *)
Definition column_names (t : DataFrame) : list string :=
  map fst (columns t).

(** [name in df.columns] *)
Definition has_column (name : string) (t : DataFrame) : bool :=
  match lookup_col name (columns t) with Some _ => true | None => false end.

(** [df[name][i]]; a column that does not exist reads as missing. *)
Definition cell (t : DataFrame) (name : string) (i : nat) : Cell :=
  match lookup_col name (columns t) with
  | Some s => values s i
  | None => NaN
  end.

(** How many columns carry the name. Column names need not be
    distinct: two header names that differ only in surrounding white
    space are the same name after line 29. *)
Definition count_columns (name : string) (t : DataFrame) : nat :=
  List.length (filter (String.eqb name) (column_names t)).

(** Several columns carry the name: [df[name]] is then a DataFrame and
    not a Series. *)
Definition ambiguous (name : string) (t : DataFrame) : bool :=
  (1 <? count_columns name t)%nat.

(** [df[name] = s] for a one-dimensional value: it replaces every column
    of that name and is appended as a new last column when there is
    none. *)
Definition set_column (name : string) (s : Series) (t : DataFrame)
  : DataFrame :=
  mkDataFrame (index t)
    (if has_column name t
     then map (fun c => if String.eqb name (fst c) then (fst c, s) else c)
              (columns t)
     else columns t ++ [(name, s)]).

(** [df.columns = df.columns.str.strip()] *)
Definition strip_columns (t : DataFrame) : DataFrame :=
  mkDataFrame (index t)
    (map (fun c => (Text.strip (fst c), snd c)) (columns t)).

(** [df[mask]] *)
Definition select (mask : nat -> bool) (t : DataFrame) : DataFrame :=
  mkDataFrame (filter mask (index t)) (columns t).

(** [s.unique()]: the distinct values in order of first appearance. *)
Fixpoint dedup (l : list Cell) : list Cell :=
  match l with
  | [] => []
  | c :: r => c :: filter (fun d => negb (Cell_eqb c d)) (dedup r)
  end.

Definition unique (t : DataFrame) (name : string) : list Cell :=
  dedup (map (cell t name) (index t)).

(** [series == q] on one cell. *)
Definition cell_is (q : Qc) (c : Cell) : bool :=
  match c with Num p => Qc_eqb p q | _ => false end.

(** *** Group by one key column and average one value column *)

(** Ascending insertion that keeps one copy of each key. *)
Fixpoint insert_key (k : Qc) (l : list Qc) : list Qc :=
  match l with
  | [] => [k]
  | h :: r =>
      if Qc_ltb k h then k :: l
      else if Qc_eqb k h then l
      else h :: insert_key k r
  end.

(** The group keys: the distinct non-missing key values, ascending. *)
Definition group_keys (t : DataFrame) (key : string) : list Qc :=
  fold_right
    (fun i acc => match cell t key i with
                  | Num q => insert_key q acc
                  | _ => acc
                  end)
    [] (index t).

(** The non-missing numbers of column [val] over the rows of group [k]. *)
Definition group_values (t : DataFrame) (key val : string) (k : Qc)
  : list Qc :=
  flat_map
    (fun i => match cell t val i with Num v => [v] | _ => [] end)
    (filter (fun i => cell_is k (cell t key i)) (index t)).

(** ['mean'] skips missing values; an all-missing group averages to
    missing. *)
Definition mean_cell (l : list Qc) : Cell :=
  match l with
  | [] => NaN
  | _ => Num (Qc_mean l)
  end.

(** [df.groupby([key]).agg(out=(val, 'mean')).reset_index()], one
    (key, mean) pair per output row. *)
Definition groupby_mean (t : DataFrame) (key val : string)
  : list (Qc * Cell) :=
  map (fun k => (k, mean_cell (group_values t key val k)))
      (group_keys t key).



(** ** The run-time environment and the interpreter state *)

Inductive PlotKind : Type := Line | Bar | Boxplot.

Inductive Analysis : Type := VMScaling | HostScaling | LandscapeVariation.

(** What [pd.read_csv(CSV_FILENAME, sep=',')] does. *)
Inductive ReadResult : Type :=
| FileNotFoundError
| ReadError (e : string)
| Parsed (t : DataFrame).

Record World : Type := mkWorld {
  dir_exists : bool;                        (* os.path.exists(OUTPUT_DIR) *)
  read_csv : ReadResult;
  plot_raises : PlotKind -> string -> bool  (* the renderer fails on a call *)
}.

(** The lines the script prints. *)
Inductive Msg : Type :=
| CreatedOutputDir (d : string)
| Loaded (f : string)
| ErrNotFound (f : string)
| ErrLoading (e : string)
| UniqueAlgorithmsHeader
| Values (l : list Cell)
| ErrNoAlgorithmColumn
| Shape (target : string) (nrows ncols : nat)
| UniqueOf (name : string) (l : list Cell)
| NoData (a : Analysis)
| PlotSaved (path : string)
| AnalysisComplete.

Inductive Effect : Type :=
| Makedirs (d : string)
| ReadCsv (f : string)
| Print (m : Msg)
| PlotCall (k : PlotKind) (path : string)
| Savefig (path : string).

Inductive Exn : Type :=
| NameError (v : string)
| KeyError (names : list string)
| AttributeError
| TypeError
| PlotError (k : PlotKind) (path : string).

(** The module-level variables, the output directory and the effects so
    far, oldest first. *)
Record State : Type := mkState {
  out_dir : bool;
  trace : list Effect;
  df : option DataFrame;
  sla_pso_df : option DataFrame;
  vm_scaling_grouped : option (list (Qc * Cell));
  host_scaling_grouped : option (list (Qc * Cell));
  landscape_variation_data : option DataFrame
}.

Definition initial (w : World) : State :=
  mkState (dir_exists w) [] None None None None None.

(** How a statement ends: normally, by [exit()], or by an exception that
    nothing catches. *)
Inductive Result (A : Type) : Type :=
| Ok (a : A)
| Exit
| Raise (e : Exn).
Arguments Ok {A} a.
Arguments Exit {A}.
Arguments Raise {A} e.

Definition M (A : Type) : Type := State -> Result A * State.

Definition ret {A} (a : A) : M A := fun s => (Ok a, s).

Definition bind {A B} (c : M A) (k : A -> M B) : M B :=
  fun s =>
    match c s with
    | (Ok a, s') => k a s'
    | (Exit, s') => (Exit, s')
    | (Raise e, s') => (Raise e, s')
    end.

Declare Scope script_scope.
Delimit Scope script_scope with script.
Notation "x <- c ;; k" := (bind c (fun x => k))
  (at level 61, c at next level, right associativity) : script_scope.
Notation "c ;; k" := (bind c (fun _ => k))
  (at level 61, right associativity) : script_scope.
Local Open Scope script_scope.

Definition exit {A} : M A := fun s => (Exit, s).
Definition raise {A} (e : Exn) : M A := fun s => (Raise e, s).

Definition emit (e : Effect) : M unit :=
  fun s => (Ok tt, mkState (out_dir s) (trace s ++ [e]) (df s) (sla_pso_df s)
                     (vm_scaling_grouped s) (host_scaling_grouped s)
                     (landscape_variation_data s)).

Definition print (m : Msg) : M unit := emit (Print m).

Definition makedirs (d : string) : M unit :=
  fun s => (Ok tt, mkState true (trace s ++ [Makedirs d]) (df s) (sla_pso_df s)
                     (vm_scaling_grouped s) (host_scaling_grouped s)
                     (landscape_variation_data s)).

Definition set_df (t : DataFrame) : M unit :=
  fun s => (Ok tt, mkState (out_dir s) (trace s) (Some t) (sla_pso_df s)
                     (vm_scaling_grouped s) (host_scaling_grouped s)
                     (landscape_variation_data s)).

Definition set_sla_pso_df (t : DataFrame) : M unit :=
  fun s => (Ok tt, mkState (out_dir s) (trace s) (df s) (Some t)
                     (vm_scaling_grouped s) (host_scaling_grouped s)
                     (landscape_variation_data s)).

Definition set_vm_scaling_grouped (g : list (Qc * Cell)) : M unit :=
  fun s => (Ok tt, mkState (out_dir s) (trace s) (df s) (sla_pso_df s)
                     (Some g) (host_scaling_grouped s)
                     (landscape_variation_data s)).

Definition set_host_scaling_grouped (g : list (Qc * Cell)) : M unit :=
  fun s => (Ok tt, mkState (out_dir s) (trace s) (df s) (sla_pso_df s)
                     (vm_scaling_grouped s) (Some g)
                     (landscape_variation_data s)).

Definition set_landscape_variation_data (t : DataFrame) : M unit :=
  fun s => (Ok tt, mkState (out_dir s) (trace s) (df s) (sla_pso_df s)
                     (vm_scaling_grouped s) (host_scaling_grouped s)
                     (Some t)).

Definition get_out_dir : M bool := fun s => (Ok (out_dir s), s).

(** Reading a module-level table that has been assigned. *)
Definition get_df : M DataFrame :=
  fun s => match df s with
           | Some t => (Ok t, s)
           | None => (Raise (NameError "df"), s)
           end.

Definition get_sla_pso_df : M DataFrame :=
  fun s => match sla_pso_df s with
           | Some t => (Ok t, s)
           | None => (Raise (NameError "sla_pso_df"), s)
           end.

(** What [t[name]] selects: the one column of that name, or a DataFrame
    of the several columns that carry it. *)
Inductive Selection : Type :=
| OneColumn (s : Series)
| SeveralColumns.

(** [t[name]]: a [KeyError] when no column has the name. *)
Definition getitem (t : DataFrame) (name : string) : M Selection :=
  match lookup_col name (columns t) with
  | Some s => ret (if ambiguous name t then SeveralColumns else OneColumn s)
  | None => raise (KeyError [name])
  end.

(** [x.attr] for an attribute that a Series has and a DataFrame has not
    ([unique], [str]). *)
Definition as_series (x : Selection) : M Series :=
  match x with
  | OneColumn s => ret s
  | SeveralColumns => raise AttributeError
  end.

(** [t[name].unique()] *)
Definition unique_of (t : DataFrame) (name : string) : M (list Cell) :=
  x <- getitem t name ;;
  _ <- as_series x ;;
  ret (unique t name).

(** ** The script *)

Definition CSV_FILENAME : string :=
  "/Users/ADMIN/Desktop/Cloudsim/cloudsim-3.0.3/cloudsim-3.0.3/compare_sla_results.csv".
Definition OUTPUT_DIR : string := "sla_pso_plots".

Definition numeric_cols : list string :=
  [ "NumVMs"; "NumHosts"; "Landscape"; "ScalingFactor"; "SLA_Violations";
    "Failed_Allocations"; "Avg_ResponseTime"; "Avg_TurnaroundTime"; "Makespan";
    "Throughput"; "Avg_Host_CPU_Util(%)"; "StdDev_Host_CPU_Util(%)";
    "Avg_QoS_Index" ].

Definition critical_cols : list string :=
  [ "Algorithm"; "NumVMs"; "NumHosts"; "Landscape"; "StdDev_Host_CPU_Util(%)" ].

Definition target_algorithm : string := "SLA-PSO".

(** The dictionary [landscape_map]; a float key equal to an integer key
    finds the same entry. *)
Definition landscape_map (q : Qc) : option string :=
  if Qc_eqb q (num 1) then Some "Homogeneous Small"
  else if Qc_eqb q (num 2) then Some "Homogeneous Medium"
  else if Qc_eqb q (num 3) then Some "Homogeneous Large"
  else if Qc_eqb q (num 4) then Some "Heterogeneous"
  else None.

Definition landscape_order : list string :=
  [ "Homogeneous Small"; "Homogeneous Medium"; "Homogeneous Large";
    "Heterogeneous" ].

Definition fixed_hosts_vm_scaling : Qc := num 5.
Definition fixed_landscape_vm_scaling : Qc := num 4.
Definition fixed_vms_host_scaling : Qc := num 30.
Definition fixed_landscape_host_scaling : Qc := num 4.
Definition fixed_vms_landscape : Qc := num 30.
Definition fixed_hosts_landscape : Qc := num 5.

(** [series.map(landscape_map).fillna('Unknown')] on one cell. *)
Definition landscape_desc (c : Cell) : Cell :=
  match c with
  | Num q => match landscape_map q with
             | Some l => Str l
             | None => Str "Unknown"
             end
  | _ => Str "Unknown"
  end.

(** [series.str.strip() == target_algorithm] on one cell of a text
    column; a cell that is not text compares unequal. *)
Definition is_target (c : Cell) : bool :=
  match c with
  | Str s => String.eqb (Text.strip s) target_algorithm
  | _ => false
  end.

(** [pd.Categorical(series, categories=cats)] on one cell: a value
    outside the categories becomes missing. *)
Definition categorical (cats : list string) (c : Cell) : Cell :=
  match c with
  | Str s => if existsb (String.eqb s) cats then c else NaN
  | _ => NaN
  end.

Definition sanitize (y_axis : string) : string :=
  Text.replace "%" "pct" (Text.replace ")" "" (Text.replace "(" "" y_axis)).

Definition kind_suffix (k : PlotKind) : string :=
  match k with Line => "line" | Bar => "bar" | Boxplot => "boxplot" end.

(** [s.endswith('/')] *)
Fixpoint ends_with_sep (s : string) : bool :=
  match s with
  | EmptyString => false
  | String c EmptyString => Ascii.eqb c "/"
  | String _ r => ends_with_sep r
  end.

(** [os.path.join(a, b)] with the separator [/]: an absolute [b]
    replaces [a]; otherwise [b] follows [a], after a separator unless
    [a] is empty or ends with one. *)
Definition path_join (a b : string) : string :=
  if String.prefix "/" b then b
  else if String.eqb a "" || ends_with_sep a then a ++ b
  else a ++ "/" ++ b.

(** [os.path.join(OUTPUT_DIR, f"{filename_prefix}_{...}_{kind}.png")] *)
Definition plot_path (k : PlotKind) (y_axis filename_prefix : string)
  : string :=
  path_join OUTPUT_DIR
    (filename_prefix ++ "_" ++ sanitize y_axis ++ "_" ++ kind_suffix k
     ++ ".png").

(** [t[(t[a] == p) & (t[b] == q)].copy()] *)
Definition slice_rows (t : DataFrame) (a : string) (p : Qc) (b : string)
  (q : Qc) : DataFrame :=
  select (fun i => cell_is p (cell t a i) && cell_is q (cell t b i)) t.

(** The columns of [subset] the table does not have. *)
Definition missing_columns (subset : list string) (t : DataFrame)
  : list string :=
  filter (fun c => negb (has_column c t)) subset.

(** The rows [dropna(subset=...)] keeps. *)
Definition dropna_rows (subset : list string) (t : DataFrame) : DataFrame :=
  select (fun i => forallb (fun c => negb (is_nan (cell t c i))) subset) t.

(** [t[t['Algorithm'].str.strip() == target_algorithm].copy()] *)
Definition algorithm_rows (t : DataFrame) : DataFrame :=
  select (fun i => is_target (cell t "Algorithm" i)) t.

(** [t['Landscape_Desc'] = t['Landscape'].map(landscape_map).fillna('Unknown')] *)
Definition with_landscape_desc (t : DataFrame) : DataFrame :=
  set_column "Landscape_Desc"
    (mkSeries DObject (fun i => landscape_desc (cell t "Landscape" i))) t.

(** The categories of the landscape analysis: the labels of
    [landscape_order] that occur in the table. *)
Definition landscape_categories (t : DataFrame) : list string :=
  filter (fun l => existsb (Cell_eqb (Str l)) (unique t "Landscape_Desc"))
         landscape_order.

Definition with_categories (t : DataFrame) : DataFrame :=
  set_column "Landscape_Desc"
    (mkSeries DObject
       (fun i => categorical (landscape_categories t)
                             (cell t "Landscape_Desc" i))) t.

Definition empty (t : DataFrame) : bool :=
  match index t with [] => true | _ => false end.

Section Script.

(** The reader of numeric literals behind [pd.to_numeric]: [None] for a
    text that is not a number. *)
Variable to_number : string -> option Qc.

(** [pd.to_numeric(series, errors='coerce')] *)
Definition coerce (c : Cell) : Cell :=
  match c with
  | Str s => match to_number s with
             | Some q => Num q
             | None => NaN
             end
  | _ => c
  end.

Definition to_numeric (s : Series) : Series :=
  mkSeries DNumeric (fun i => coerce (values s i)).

(** [pd.to_numeric(x, errors='coerce')] with its argument check: a
    DataFrame is refused with a [TypeError]. *)
Definition to_numeric_of (x : Selection) : M Series :=
  match x with
  | OneColumn s => ret (to_numeric s)
  | SeveralColumns => raise TypeError
  end.

(** The table a round of the loop of lines 46-48 leaves when it
    completes: the column, if the table has it, holds its coerced
    values. *)
Definition coerce_column (t : DataFrame) (col : string) : DataFrame :=
  match lookup_col col (columns t) with
  | Some s => set_column col (to_numeric s) t
  | None => t
  end.

Variable w : World.

(** The body shared by the three plot functions: draw, save, report.
    Title, axis labels and caption only reach the renderer. *)
Definition render (k : PlotKind) (x_axis y_axis filename_prefix : string)
  : M unit :=
  let plot_path := plot_path k y_axis filename_prefix in
  emit (PlotCall k plot_path) ;;
  if plot_raises w k plot_path then raise (PlotError k plot_path)
  else emit (Savefig plot_path) ;; print (PlotSaved plot_path).

Definition plot_line_single := render Line.
Definition plot_bar_single := render Bar.
Definition plot_boxplot_single := render Boxplot.

(** Lines 11-14. *)
Definition ensure_output_dir : M unit :=
  e <- get_out_dir ;;
  if e then ret tt
  else makedirs OUTPUT_DIR ;; print (CreatedOutputDir OUTPUT_DIR).

(** Lines 17-25. *)
Definition load_data : M unit :=
  emit (ReadCsv CSV_FILENAME) ;;
  match read_csv w with
  | Parsed t => set_df t ;; print (Loaded CSV_FILENAME)
  | FileNotFoundError => print (ErrNotFound CSV_FILENAME) ;; exit
  | ReadError e => print (ErrLoading e) ;; exit
  end.

(** Line 29. *)
Definition strip_column_names : M unit :=
  t <- get_df ;; set_df (strip_columns t).

(** Lines 32-37. The argument of [print] is evaluated first: when
    [df['Algorithm']] has no [unique], nothing follows the header. *)
Definition check_algorithm : M unit :=
  print UniqueAlgorithmsHeader ;;
  t <- get_df ;;
  if has_column "Algorithm" t then
    l <- unique_of t "Algorithm" ;;
    print (Values l)
  else print ErrNoAlgorithmColumn ;; exit.

(** Lines 47-48, one round of the loop. *)
Definition coerce_round (col : string) : M unit :=
  t <- get_df ;;
  if has_column col t then
    x <- getitem t col ;;
    s <- to_numeric_of x ;;
    set_df (set_column col s t)
  else ret tt.

(** Lines 46-48. *)
Fixpoint coerce_columns (cols : list string) : M unit :=
  match cols with
  | [] => ret tt
  | col :: rest => coerce_round col ;; coerce_columns rest
  end.

(** Line 51: [df.dropna(subset=..., inplace=True)]; the columns of the
    subset that do not exist are a [KeyError]. *)
Definition dropna (subset : list string) : M unit :=
  t <- get_df ;;
  match missing_columns subset t with
  | [] => set_df (dropna_rows subset t)
  | missing => raise (KeyError missing)
  end.

(** Lines 56-57; the [.str] accessor refuses a column that is not text. *)
Definition filter_algorithm : M unit :=
  t <- get_df ;;
  x <- getitem t "Algorithm" ;;
  s <- as_series x ;;
  match dtype s with
  | DObject => set_sla_pso_df (algorithm_rows t)
  | DNumeric => raise AttributeError
  end.

(** Lines 60-62. The labels replace every column already called
    [Landscape_Desc]. *)
Definition add_landscape_desc : M unit :=
  t <- get_sla_pso_df ;;
  if has_column "Landscape" t
  then set_sla_pso_df (with_landscape_desc t)
  else ret tt.

(** Lines 64-67. Each [print] evaluates its argument first: when two
    columns carry the label name, line 67 raises after the first three
    lines are printed. *)
Definition describe : M unit :=
  t <- get_sla_pso_df ;;
  print (Shape target_algorithm (List.length (index t))
               (List.length (columns t))) ;;
  vms <- unique_of t "NumVMs" ;;
  print (UniqueOf "NumVMs" vms) ;;
  hosts <- unique_of t "NumHosts" ;;
  print (UniqueOf "NumHosts" hosts) ;;
  labels <- unique_of t "Landscape_Desc" ;;
  print (UniqueOf "Landscape_Desc" labels).

(** [t[(t[a] == p) & (t[b] == q)].copy()], with the two column
    look-ups. The script compares numeric columns only, and a table that
    gets here has one column of each numeric name (the loop of lines
    46-48 has raised otherwise), so both operands are Series. *)
Definition slice (t : DataFrame) (a : string) (p : Qc) (b : string) (q : Qc)
  : M DataFrame :=
  _ <- getitem t a ;;
  _ <- getitem t b ;;
  ret (slice_rows t a p b q).

(** [t.groupby([key]).agg(out=(val, 'mean')).reset_index()], with the
    two column look-ups; again on numeric names only. *)
Definition groupby_agg_mean (t : DataFrame) (key val : string)
  : M (list (Qc * Cell)) :=
  _ <- getitem t key ;;
  _ <- getitem t val ;;
  ret (groupby_mean t key val).

(** Lines 121-135. *)
Definition vm_scaling : M unit :=
  t <- get_sla_pso_df ;;
  vm_scaling_data <- slice t "NumHosts" fixed_hosts_vm_scaling
                             "Landscape" fixed_landscape_vm_scaling ;;
  if negb (empty vm_scaling_data) then
    g <- groupby_agg_mean vm_scaling_data "NumVMs" "StdDev_Host_CPU_Util(%)" ;;
    set_vm_scaling_grouped g ;;
    plot_line_single "NumVMs" "Avg_StdDev_Host_CPU_Util_Pct"
                     "sla_pso_vm_scaling_stddev_cpu_util"
  else print (NoData VMScaling).

(** Lines 138-152. *)
Definition host_scaling : M unit :=
  t <- get_sla_pso_df ;;
  host_scaling_data <- slice t "NumVMs" fixed_vms_host_scaling
                               "Landscape" fixed_landscape_host_scaling ;;
  if negb (empty host_scaling_data) then
    g <- groupby_agg_mean host_scaling_data "NumHosts"
                          "StdDev_Host_CPU_Util(%)" ;;
    set_host_scaling_grouped g ;;
    plot_line_single "NumHosts" "Avg_StdDev_Host_CPU_Util_Pct"
                     "sla_pso_host_scaling_stddev_cpu_util"
  else print (NoData HostScaling).

(** Lines 155-183. The slice is assigned to [landscape_variation_data]
    before it is tested; a slice with rows is assigned again with its
    categorical label column. The order in which [sort_values] leaves
    the rows only matters to the renderer and is not modelled. *)
Definition landscape_variation : M unit :=
  t <- get_sla_pso_df ;;
  data <- slice t "NumVMs" fixed_vms_landscape
                  "NumHosts" fixed_hosts_landscape ;;
  set_landscape_variation_data data ;;
  if negb (empty data) then
    _ <- unique_of data "Landscape_Desc" ;;
    set_landscape_variation_data (with_categories data) ;;
    plot_bar_single "Landscape_Desc" "StdDev_Host_CPU_Util(%)"
                    "sla_pso_landscape_stddev_cpu_util" ;;
    plot_line_single "Landscape_Desc" "StdDev_Host_CPU_Util(%)"
                     "sla_pso_landscape_stddev_cpu_util_curve" ;;
    plot_boxplot_single "Landscape_Desc" "StdDev_Host_CPU_Util(%)"
                        "sla_pso_landscape_stddev_cpu_util_boxplot"
  else print (NoData LandscapeVariation).

(** Lines 27-67: cleaning and preparation. *)
Definition clean : M unit :=
  strip_column_names ;;
  check_algorithm ;;
  coerce_columns numeric_cols ;;
  dropna critical_cols ;;
  filter_algorithm ;;
  add_landscape_desc ;;
  describe.

(** Lines 119-185. *)
Definition analyse : M unit :=
  vm_scaling ;;
  host_scaling ;;
  landscape_variation ;;
  print AnalysisComplete.

Definition script : M unit :=
  ensure_output_dir ;;
  load_data ;;
  clean ;;
  analyse.

Definition run : Result unit * State := script (initial w).

End Script.

(** The status the interpreter exits with: [exit()] passes no status
    and so leaves with 0; an exception that nothing catches leaves
    with 1. *)
Definition exit_status (r : Result unit) : Z :=
  match r with
  | Ok _ => 0%Z
  | Exit => 0%Z
  | Raise _ => 1%Z
  end.

Definition outcome (to_number : string -> option Qc) (w : World)
  : Result unit := fst (run to_number w).
Definition final (to_number : string -> option Qc) (w : World)
  : State := snd (run to_number w).

(** The console lines of a trace, oldest first. *)
Definition stdout (s : State) : list Msg :=
  flat_map (fun e => match e with Print m => [m] | _ => [] end) (trace s).

(** The files a trace has written. *)
Definition files (s : State) : list string :=
  flat_map (fun e => match e with Savefig p => [p] | _ => [] end) (trace s).

(** The plot calls a trace has entered. *)
Definition plot_calls (s : State) : list (PlotKind * string) :=
  flat_map (fun e => match e with PlotCall k p => [(k, p)] | _ => [] end)
           (trace s).

(** ** The tables and paths of a run, named *)

(** The loop of lines 46-48 meets a name that several columns carry. *)
Definition numeric_clash (t : DataFrame) : bool :=
  existsb (fun c => ambiguous c t) numeric_cols.

(** The names that loop gets through: all of [cols], or those before
    the first one that several columns carry. *)
Fixpoint converted (cols : list string) (t : DataFrame) : list string :=
  match cols with
  | [] => []
  | c :: r => if ambiguous c t then [] else c :: converted r t
  end.

(** [df] after the loop of lines 46-48 when it completes, from the
    table as read. *)
Definition df_numeric (to_number : string -> option Qc) (t0 : DataFrame)
  : DataFrame :=
  fold_left (coerce_column to_number) numeric_cols (strip_columns t0).

(** [df] when the loop stops at a name that several columns carry. *)
Definition df_stopped (to_number : string -> option Qc) (t0 : DataFrame)
  : DataFrame :=
  fold_left (coerce_column to_number)
            (converted numeric_cols (strip_columns t0)) (strip_columns t0).

(** [df] after line 51. *)
Definition df_clean (to_number : string -> option Qc) (t0 : DataFrame)
  : DataFrame :=
  dropna_rows critical_cols (df_numeric to_number t0).

(** [sla_pso_df] after line 62. *)
Definition sla_pso (to_number : string -> option Qc) (t0 : DataFrame)
  : DataFrame :=
  with_landscape_desc (algorithm_rows (df_clean to_number t0)).

Definition algorithm_dtype (t : DataFrame) : Dtype :=
  match lookup_col "Algorithm" (columns t) with
  | Some s => dtype s
  | None => DObject
  end.

Definition vm_scaling_data (f : DataFrame) : DataFrame :=
  slice_rows f "NumHosts" fixed_hosts_vm_scaling
               "Landscape" fixed_landscape_vm_scaling.

Definition host_scaling_data (f : DataFrame) : DataFrame :=
  slice_rows f "NumVMs" fixed_vms_host_scaling
               "Landscape" fixed_landscape_host_scaling.

Definition landscape_slice (f : DataFrame) : DataFrame :=
  slice_rows f "NumVMs" fixed_vms_landscape
               "NumHosts" fixed_hosts_landscape.

Definition vm_plot : string :=
  plot_path Line "Avg_StdDev_Host_CPU_Util_Pct"
            "sla_pso_vm_scaling_stddev_cpu_util".
Definition host_plot : string :=
  plot_path Line "Avg_StdDev_Host_CPU_Util_Pct"
            "sla_pso_host_scaling_stddev_cpu_util".
Definition landscape_bar_plot : string :=
  plot_path Bar "StdDev_Host_CPU_Util(%)" "sla_pso_landscape_stddev_cpu_util".
Definition landscape_curve_plot : string :=
  plot_path Line "StdDev_Host_CPU_Util(%)"
            "sla_pso_landscape_stddev_cpu_util_curve".
Definition landscape_box_plot : string :=
  plot_path Boxplot "StdDev_Host_CPU_Util(%)"
            "sla_pso_landscape_stddev_cpu_util_boxplot".

(** The effects of lines 11-14. *)
Definition setup_trace (w : World) : list Effect :=
  if dir_exists w then []
  else [ Makedirs OUTPUT_DIR; Print (CreatedOutputDir OUTPUT_DIR) ].

(** The lines 64-66 print. *)
Definition describe_head (f : DataFrame) : list Effect :=
  [ Print (Shape target_algorithm (List.length (index f))
                 (List.length (columns f)));
    Print (UniqueOf "NumVMs" (unique f "NumVMs"));
    Print (UniqueOf "NumHosts" (unique f "NumHosts")) ].

(** The lines 64-67 print. *)
Definition describe_lines (f : DataFrame) : list Effect :=
  [ Print (Shape target_algorithm (List.length (index f))
                 (List.length (columns f)));
    Print (UniqueOf "NumVMs" (unique f "NumVMs"));
    Print (UniqueOf "NumHosts" (unique f "NumHosts"));
    Print (UniqueOf "Landscape_Desc" (unique f "Landscape_Desc")) ].

(** The effects up to the successful load. *)
Definition loaded_trace (w : World) : list Effect :=
  setup_trace w ++ [ ReadCsv CSV_FILENAME; Print (Loaded CSV_FILENAME) ].

(** The effects up to the listing of the algorithm names. *)
Definition checked_trace (w : World) (t0 : DataFrame) : list Effect :=
  loaded_trace w
  ++ [ Print UniqueAlgorithmsHeader;
       Print (Values (unique (strip_columns t0) "Algorithm")) ].

(** The state in which the analyses start. *)
Definition analysis_start (to_number : string -> option Qc) (w : World)
  (t0 : DataFrame) : State :=
  mkState true
    (checked_trace w t0 ++ describe_lines (sla_pso to_number t0))
    (Some (df_clean to_number t0)) (Some (sla_pso to_number t0))
    None None None.


(** The renderer succeeds on every call. *)
Definition renderer_total (w : World) : Prop :=
  forall k p, plot_raises w k p = false.

(** The table line 176 hands to the curve plot:
    [data.groupby('Landscape_Desc', observed=False)[val].mean().reset_index()]
    on the categorical column, one row per category in category order;
    a row whose label is missing belongs to no group. *)
Definition landscape_curve_data (slice : DataFrame) : list (string * Cell) :=
  let data := with_categories slice in
  map (fun l =>
         (l,
          mean_cell
            (flat_map
               (fun i => match cell data "StdDev_Host_CPU_Util(%)" i with
                         | Num v => [v]
                         | _ => []
                         end)
               (filter (fun i => Cell_eqb (cell data "Landscape_Desc" i)
                                          (Str l))
                       (index data)))))
      (landscape_categories slice).

(** [c in s] for one character. *)
Fixpoint occurs (c : ascii) (s : string) : bool :=
  match s with
  | EmptyString => false
  | String a r => Ascii.eqb c a || occurs c r
  end.

(** The lines a trace reports as saved plots. *)
Definition reported (l : list Msg) : list string :=
  flat_map (fun m => match m with PlotSaved p => [p] | _ => [] end) l.

(** The five chart files, in the order the script draws them. *)
Definition chart_files : list string :=
  [ vm_plot; host_plot; landscape_bar_plot; landscape_curve_plot;
    landscape_box_plot ].

(** No text occurs twice. *)
Fixpoint distinctb (l : list string) : bool :=
  match l with
  | [] => true
  | a :: r => negb (existsb (String.eqb a) r) && distinctb r
  end.

(** ** A concrete reader of numeric literals and concrete inputs *)

Module Decimal.

Definition digit (c : ascii) : option Z :=
  let n := nat_of_ascii c in
  if ((48 <=? n) && (n <=? 57))%nat then Some (Z.of_nat (n - 48)) else None.

(** Digits with at most one decimal point: the digits read as one
    integer, and the power of ten the fraction divides it by. *)
Fixpoint scan (s : string) (mant scale : Z) (point any : bool)
  : option (Z * Z) :=
  match s with
  | EmptyString => if any then Some (mant, scale) else None
  | String c r =>
      if Ascii.eqb c "." then
        if point then None else scan r mant scale true any
      else
        match digit c with
        | Some d =>
            scan r (10 * mant + d)%Z (if point then (10 * scale)%Z else scale)
                 point true
        | None => None
        end
  end.

Definition unsigned (s : string) : option Qc :=
  match scan s 0%Z 1%Z false false with
  | Some (m, sc) => Some (Q2Qc (Qmake m (Z.to_pos sc)))
  | None => None
  end.

(** Plain decimal literals with an optional minus sign. *)
Definition to_number (s : string) : option Qc :=
  match s with
  | EmptyString => None
  | String c r =>
      if Ascii.eqb c "-"
      then match unsigned r with Some q => Some (Qcopp q) | None => None end
      else unsigned s
  end.

End Decimal.

Module Examples.

Definition series_of (d : Dtype) (l : list Cell) : Series :=
  mkSeries d (fun i => nth i l NaN).

Definition text_column (l : list string) : Series :=
  series_of DObject (map Str l).

Definition int_column (l : list Z) : Series :=
  series_of DNumeric (map (fun z => Num (num z)) l).

(** A number with one decimal, given in tenths. *)
Definition tenths (z : Z) : Qc := Q2Qc (Qmake z 10).

Definition float_column (l : list Z) : Series :=
  series_of DNumeric (map (fun z => Num (tenths z)) l).

Definition renderer_ok : PlotKind -> string -> bool := fun _ _ => false.

(** The six-row table: SLA-PSO throughout, five hosts, landscape 4. *)
Definition six_rows : DataFrame :=
  mkDataFrame (seq 0 6)
    [ ("Algorithm", text_column [ "SLA-PSO"; "SLA-PSO"; "SLA-PSO"; "SLA-PSO";
                                  "SLA-PSO"; "SLA-PSO" ]);
      ("NumVMs", int_column [ 10; 10; 20; 20; 30; 30 ]%Z);
      ("NumHosts", int_column [ 5; 5; 5; 5; 5; 5 ]%Z);
      ("Landscape", int_column [ 4; 4; 4; 4; 4; 4 ]%Z);
      ("StdDev_Host_CPU_Util(%)", float_column [ 10; 20; 30; 40; 50; 60 ]%Z) ].

Definition six_rows_world : World := mkWorld false (Parsed six_rows) renderer_ok.

(** Three spellings of the algorithm name and two other algorithms; a
    text where a number belongs in the last row. *)
Definition padded_names : DataFrame :=
  mkDataFrame (seq 0 6)
    [ (" Algorithm", text_column [ "SLA-PSO"; "SLA-PSO "; " SLA-PSO"; "PSO";
                                   "SLA_PSO"; "SLA-PSO" ]);
      ("NumVMs ", int_column [ 30; 30; 30; 30; 30; 30 ]%Z);
      ("NumHosts", int_column [ 5; 5; 5; 5; 5; 5 ]%Z);
      ("Landscape", int_column [ 1; 4; 7; 4; 4; 4 ]%Z);
      ("StdDev_Host_CPU_Util(%)",
       series_of DObject [ Str "1.5"; Str "2.5"; Str "3.5"; Str "4.5";
                           Str "5.5"; Str "n/a" ]) ].

Definition padded_names_world : World :=
  mkWorld true (Parsed padded_names) renderer_ok.

(** The renderer fails on the first chart of the run. *)
Definition first_chart_fails : PlotKind -> string -> bool :=
  fun k p =>
    String.eqb p
      "sla_pso_plots/sla_pso_vm_scaling_stddev_cpu_util_Avg_StdDev_Host_CPU_Util_Pct_line.png".

Definition failing_renderer_world : World :=
  mkWorld false (Parsed six_rows) first_chart_fails.


(** A table without the [Algorithm] column. *)
Definition no_algorithm : DataFrame :=
  mkDataFrame (seq 0 1)
    [ ("NumVMs", series_of DObject [ Str "ten" ]);
      ("NumHosts", int_column [ 5 ]%Z) ].

Definition no_algorithm_world : World :=
  mkWorld false (Parsed no_algorithm) renderer_ok.

(** A table with [Algorithm] but without [Landscape]. *)
Definition no_landscape : DataFrame :=
  mkDataFrame (seq 0 1)
    [ ("Algorithm", text_column [ "SLA-PSO" ]);
      ("NumVMs", int_column [ 30 ]%Z);
      ("NumHosts", int_column [ 5 ]%Z);
      ("StdDev_Host_CPU_Util(%)", float_column [ 15 ]%Z) ].

Definition no_landscape_world : World :=
  mkWorld false (Parsed no_landscape) renderer_ok.

(** Rows at ten virtual machines only: the host-scaling and the
    landscape slices are empty. *)
Definition ten_vms_only : DataFrame :=
  mkDataFrame (seq 0 2)
    [ ("Algorithm", text_column [ "SLA-PSO"; "SLA-PSO" ]);
      ("NumVMs", int_column [ 10; 10 ]%Z);
      ("NumHosts", int_column [ 5; 5 ]%Z);
      ("Landscape", int_column [ 4; 4 ]%Z);
      ("StdDev_Host_CPU_Util(%)", float_column [ 10; 20 ]%Z) ].

Definition ten_vms_world : World :=
  mkWorld false (Parsed ten_vms_only) renderer_ok.

(** Thirty virtual machines on five hosts in landscape 1: the
    host-scaling slice is empty, the landscape slice is not. *)
Definition small_landscape_only : DataFrame :=
  mkDataFrame (seq 0 2)
    [ ("Algorithm", text_column [ "SLA-PSO"; "SLA-PSO" ]);
      ("NumVMs", int_column [ 30; 30 ]%Z);
      ("NumHosts", int_column [ 5; 5 ]%Z);
      ("Landscape", int_column [ 1; 1 ]%Z);
      ("StdDev_Host_CPU_Util(%)", float_column [ 10; 20 ]%Z) ].

(** The renderer fails on box plots only. *)
Definition box_chart_fails : PlotKind -> string -> bool :=
  fun k _ => match k with Boxplot => true | _ => false end.

Definition box_chart_fails_world : World :=
  mkWorld false (Parsed small_landscape_only) box_chart_fails.

(** Two header names that trim to [Algorithm], and no [Landscape]. *)
Definition two_algorithm_columns : DataFrame :=
  mkDataFrame (seq 0 1)
    [ ("Algorithm", text_column [ "SLA-PSO" ]);
      (" Algorithm", text_column [ "PSO" ]);
      ("NumVMs", int_column [ 30 ]%Z);
      ("NumHosts", int_column [ 5 ]%Z);
      ("StdDev_Host_CPU_Util(%)", float_column [ 15 ]%Z) ].

Definition two_algorithm_columns_world : World :=
  mkWorld false (Parsed two_algorithm_columns) renderer_ok.

End Examples.

Module MoreExamples.
Import Examples.

(** Every value of [Algorithm] is a number: the column is read as
    numeric. *)
Definition numbered_algorithms : DataFrame :=
  mkDataFrame (seq 0 2)
    [ ("Algorithm", int_column [ 1; 2 ]%Z);
      ("NumVMs", int_column [ 30; 30 ]%Z);
      ("NumHosts", int_column [ 5; 5 ]%Z);
      ("Landscape", int_column [ 4; 4 ]%Z);
      ("StdDev_Host_CPU_Util(%)", float_column [ 10; 20 ]%Z) ].

Definition numbered_algorithms_world : World :=
  mkWorld true (Parsed numbered_algorithms) renderer_ok.

(** No row is a run of SLA-PSO; the renderer would fail on any call. *)
Definition other_algorithms : DataFrame :=
  mkDataFrame (seq 0 2)
    [ ("Algorithm", text_column [ "PSO"; "GA" ]);
      ("NumVMs", int_column [ 30; 30 ]%Z);
      ("NumHosts", int_column [ 5; 5 ]%Z);
      ("Landscape", int_column [ 4; 4 ]%Z);
      ("StdDev_Host_CPU_Util(%)", float_column [ 10; 20 ]%Z) ].

Definition other_algorithms_world : World :=
  mkWorld false (Parsed other_algorithms) (fun _ _ => true).

Definition unreadable_world : World :=
  mkWorld true (ReadError "Error tokenizing data") renderer_ok.

(** Two header names that trim to [NumHosts]. *)
Definition two_host_columns : DataFrame :=
  mkDataFrame (seq 0 1)
    [ ("Algorithm", text_column [ "SLA-PSO" ]);
      ("NumVMs", series_of DObject [ Str "30" ]);
      ("NumHosts", int_column [ 5 ]%Z);
      ("NumHosts ", int_column [ 6 ]%Z);
      ("Landscape", int_column [ 4 ]%Z);
      ("StdDev_Host_CPU_Util(%)", float_column [ 15 ]%Z) ].

Definition two_host_columns_world : World :=
  mkWorld true (Parsed two_host_columns) renderer_ok.

(** Two header names that trim to [Landscape_Desc]. *)
Definition two_label_columns : DataFrame :=
  mkDataFrame (seq 0 1)
    [ ("Algorithm", text_column [ "SLA-PSO" ]);
      ("NumVMs", int_column [ 30 ]%Z);
      ("NumHosts", int_column [ 5 ]%Z);
      ("Landscape", int_column [ 4 ]%Z);
      ("StdDev_Host_CPU_Util(%)", float_column [ 15 ]%Z);
      ("Landscape_Desc", text_column [ "mixed" ]);
      ("Landscape_Desc ", text_column [ "mixed" ]) ].

Definition two_label_columns_world : World :=
  mkWorld true (Parsed two_label_columns) renderer_ok.

(** The table [padded_names] with its header already trimmed. *)
Definition trimmed_names : DataFrame :=
  mkDataFrame (seq 0 6)
    [ ("Algorithm", text_column [ "SLA-PSO"; "SLA-PSO "; " SLA-PSO"; "PSO";
                                  "SLA_PSO"; "SLA-PSO" ]);
      ("NumVMs", int_column [ 30; 30; 30; 30; 30; 30 ]%Z);
      ("NumHosts", int_column [ 5; 5; 5; 5; 5; 5 ]%Z);
      ("Landscape", int_column [ 1; 4; 7; 4; 4; 4 ]%Z);
      ("StdDev_Host_CPU_Util(%)",
       series_of DObject [ Str "1.5"; Str "2.5"; Str "3.5"; Str "4.5";
                           Str "5.5"; Str "n/a" ]) ].

End MoreExamples.

(** * Properties *)

(** ** Text *)

Module TextFacts.
Import Text.

Lemma lstrip_app_space (l s : string) :
  all_space l = true -> lstrip (l ++ s)%string = lstrip s.
Proof.
  induction l as [| c l IH]; simpl; intros H; [reflexivity|].
  apply andb_prop in H as [Hc Hl]. rewrite Hc. auto.
Qed.

Lemma lstrip_decompose (s : string) :
  exists l, all_space l = true /\ s = (l ++ lstrip s)%string.
Proof.
  induction s as [| c s (l & Hl & Hs)]; simpl.
  - exists EmptyString. auto.
  - destruct (is_space c) eqn:Hc.
    + exists (String c l). simpl. rewrite Hc, Hl. split; [reflexivity|].
      now f_equal.
    + exists EmptyString. simpl. auto.
Qed.

Lemma rstrip_all_space (r : string) : all_space r = true -> rstrip r = "".
Proof.
  induction r as [| c r IH]; simpl; intros H; [reflexivity|].
  apply andb_prop in H as [Hc Hr]. rewrite (IH Hr), Hc. reflexivity.
Qed.

Lemma rstrip_app_space (s r : string) :
  all_space r = true -> rstrip (s ++ r)%string = rstrip s.
Proof.
  intros Hr. induction s as [| c s IH]; simpl.
  - now apply rstrip_all_space.
  - now rewrite IH.
Qed.

Lemma rstrip_decompose (s : string) :
  exists r, all_space r = true /\ s = (rstrip s ++ r)%string.
Proof.
  induction s as [| c s (r & Hr & Hs)]; simpl.
  - exists EmptyString. auto.
  - destruct (rstrip s) as [| d u] eqn:E.
    + destruct (is_space c) eqn:Hc.
      * exists (String c r). simpl in *. rewrite Hc, Hr.
        split; [reflexivity | now f_equal].
      * exists r. simpl in *. split; [assumption | now f_equal].
    + exists r. simpl in *. split; [assumption | now f_equal].
Qed.

(** A text strips to the target name exactly when it is the name
    between two runs of white space. *)
Lemma strip_target_iff (s : string) :
  strip s = target_algorithm <->
  exists l r, all_space l = true /\ all_space r = true
              /\ s = (l ++ target_algorithm ++ r)%string.
Proof.
  unfold strip. split.
  - intros H. destruct (lstrip_decompose s) as (l & Hl & Hs).
    destruct (rstrip_decompose (lstrip s)) as (r & Hr & Hs').
    exists l, r. rewrite H in Hs'. rewrite <- Hs'. auto.
  - intros (l & r & Hl & Hr & ->).
    rewrite (lstrip_app_space _ _ Hl).
    change (lstrip (target_algorithm ++ r)%string)
      with (target_algorithm ++ r)%string.
    now rewrite (rstrip_app_space _ _ Hr).
Qed.

End TextFacts.

(** ** Numbers and tables *)

Lemma Qc_eqb_eq (x y : Qc) : Qc_eqb x y = true <-> x = y.
Proof.
  unfold Qc_eqb. rewrite Qeq_bool_iff. split.
  - apply Qc_is_canon.
  - intros ->. reflexivity.
Qed.

Lemma Qc_eqb_refl (x : Qc) : Qc_eqb x x = true.
Proof. now apply Qc_eqb_eq. Qed.

Lemma Qc_ltb_lt (x y : Qc) : Qc_ltb x y = true <-> (x < y)%Qc.
Proof.
  unfold Qc_ltb. rewrite Qclt_alt.
  destruct (x ?= y)%Qc; split; intros H; congruence.
Qed.

Lemma cell_is_Num (q : Qc) (c : Cell) : cell_is q c = true <-> c = Num q.
Proof.
  destruct c as [| s | p]; simpl; try (split; discriminate).
  rewrite Qc_eqb_eq. split; congruence.
Qed.

Lemma lookup_replaced (n m : string) (s : Series) cols :
  lookup_col n
    (map (fun c : string * Series =>
            if String.eqb m (fst c) then (fst c, s) else c) cols)
  = match lookup_col n cols with
    | Some x => Some (if String.eqb n m then s else x)
    | None => None
    end.
Proof.
  induction cols as [| [a x] r IH]; cbn [map lookup_col fst]; [reflexivity|].
  destruct (String.eqb m a) eqn:Ema; cbn [lookup_col].
  - apply String.eqb_eq in Ema. subst a.
    destruct (String.eqb n m); [reflexivity | exact IH].
  - destruct (String.eqb n a) eqn:Ena; [| exact IH].
    apply String.eqb_eq in Ena. subst a.
    rewrite String.eqb_sym, Ema. reflexivity.
Qed.

Lemma lookup_appended (n m : string) (s : Series) cols :
  lookup_col n (cols ++ [(m, s)])
  = match lookup_col n cols with
    | Some x => Some x
    | None => if String.eqb n m then Some s else None
    end.
Proof.
  induction cols as [| [a x] r IH]; cbn [app lookup_col]; [reflexivity|].
  destruct (String.eqb n a); [reflexivity | exact IH].
Qed.

Lemma lookup_set_column (m : string) (s : Series) (t : DataFrame) n :
  lookup_col n (columns (set_column m s t))
  = if String.eqb n m then Some s else lookup_col n (columns t).
Proof.
  unfold set_column, has_column. cbn [columns].
  destruct (lookup_col m (columns t)) as [x|] eqn:E.
  - rewrite lookup_replaced. destruct (String.eqb n m) eqn:Enm.
    + apply String.eqb_eq in Enm. subst n. rewrite E. reflexivity.
    + destruct (lookup_col n (columns t)); reflexivity.
  - rewrite lookup_appended. destruct (String.eqb n m) eqn:Enm.
    + apply String.eqb_eq in Enm. subst n. rewrite E. reflexivity.
    + destruct (lookup_col n (columns t)); reflexivity.
Qed.

Lemma cell_set_column (m : string) (s : Series) (t : DataFrame) n i :
  cell (set_column m s t) n i
  = if String.eqb n m then values s i else cell t n i.
Proof.
  unfold cell. rewrite lookup_set_column.
  destruct (String.eqb n m); reflexivity.
Qed.

Lemma has_column_set_column (m : string) (s : Series) (t : DataFrame) n :
  has_column n (set_column m s t) = String.eqb n m || has_column n t.
Proof.
  unfold has_column. rewrite lookup_set_column.
  destruct (String.eqb n m); reflexivity.
Qed.

(** *** Column names and the names several columns carry *)

Lemma absent_uncounted (n : string) (t : DataFrame) :
  has_column n t = false -> count_columns n t = 0%nat.
Proof.
  unfold has_column, count_columns, column_names.
  induction (columns t) as [| [a x] r IH]; cbn [map filter lookup_col fst];
    [reflexivity|].
  destruct (String.eqb n a); [discriminate | exact IH].
Qed.

Lemma ambiguous_present (n : string) (t : DataFrame) :
  ambiguous n t = true -> has_column n t = true.
Proof.
  unfold ambiguous. destruct (has_column n t) eqn:E; [reflexivity|].
  rewrite (absent_uncounted _ _ E). discriminate.
Qed.

Lemma count_set_column (n m : string) (s : Series) (t : DataFrame) :
  count_columns n (set_column m s t)
  = if has_column m t then count_columns n t
    else if String.eqb n m then 1%nat else count_columns n t.
Proof.
  unfold count_columns at 1. unfold column_names, set_column. cbn [columns].
  destruct (has_column m t) eqn:E.
  - rewrite map_map.
    rewrite (map_ext _ fst); [reflexivity|].
    intros [a x]. cbn [fst]. destruct (String.eqb m a); reflexivity.
  - rewrite map_app, filter_app, length_app. cbn [map fst filter].
    fold (column_names t). fold (count_columns n t).
    destruct (String.eqb n m) eqn:Enm; cbn [List.length].
    + apply String.eqb_eq in Enm. subst n.
      rewrite (absent_uncounted _ _ E). reflexivity.
    + apply Nat.add_0_r.
Qed.

(** An assignment to a column leaves every name as ambiguous as it
    was. *)
Lemma ambiguous_set_column (n m : string) (s : Series) (t : DataFrame) :
  ambiguous n (set_column m s t) = ambiguous n t.
Proof.
  unfold ambiguous. rewrite count_set_column.
  destruct (has_column m t) eqn:E; [reflexivity|].
  destruct (String.eqb n m) eqn:Enm; [|reflexivity].
  apply String.eqb_eq in Enm. subst n.
  rewrite (absent_uncounted _ _ E). reflexivity.
Qed.

Lemma ambiguous_columns (n : string) (t t' : DataFrame) :
  columns t = columns t' -> ambiguous n t = ambiguous n t'.
Proof.
  intros H. unfold ambiguous, count_columns, column_names. now rewrite H.
Qed.

Lemma has_column_lookup (n : string) (t : DataFrame) :
  has_column n t = true -> exists s, lookup_col n (columns t) = Some s.
Proof.
  unfold has_column. destruct (lookup_col n (columns t)) as [s|]; [eauto|].
  discriminate.
Qed.

Lemma has_column_In (n : string) (t : DataFrame) :
  has_column n t = true <-> In n (column_names t).
Proof.
  unfold has_column, column_names.
  induction (columns t) as [| [a s] r IH]; simpl.
  - split; [discriminate | tauto].
  - destruct (String.eqb n a) eqn:E.
    + apply String.eqb_eq in E. subst. tauto.
    + apply String.eqb_neq in E. rewrite IH. split; [tauto|].
      intros [H | H]; [congruence | assumption].
Qed.

Lemma has_column_not_In (n : string) (t : DataFrame) :
  has_column n t = false <-> ~ In n (column_names t).
Proof.
  rewrite <- has_column_In. destruct (has_column n t); split; congruence.
Qed.

Lemma missing_columns_nil (cs : list string) (t : DataFrame) :
  missing_columns cs t = [] -> forall c, In c cs -> has_column c t = true.
Proof.
  unfold missing_columns. induction cs as [| a cs IH]; simpl; [tauto|].
  destruct (has_column a t) eqn:Ha; simpl; [|discriminate].
  intros H c [<- | Hc]; auto.
Qed.

Lemma missing_columns_In (cs : list string) (t : DataFrame) (c : string) :
  In c (missing_columns cs t) <-> In c cs /\ has_column c t = false.
Proof.
  unfold missing_columns. rewrite filter_In, negb_true_iff. tauto.
Qed.

Lemma columns_select (m : nat -> bool) (t : DataFrame) :
  columns (select m t) = columns t.
Proof. reflexivity. Qed.

Lemma has_column_select (m : nat -> bool) (t : DataFrame) n :
  has_column n (select m t) = has_column n t.
Proof. reflexivity. Qed.

Lemma cell_select (m : nat -> bool) (t : DataFrame) n i :
  cell (select m t) n i = cell t n i.
Proof. reflexivity. Qed.

Lemma index_select (m : nat -> bool) (t : DataFrame) :
  index (select m t) = filter m (index t).
Proof. reflexivity. Qed.

Lemma index_set_column (n : string) (s : Series) (t : DataFrame) :
  index (set_column n s t) = index t.
Proof. reflexivity. Qed.

Section Coercion.

Variable to_number : string -> option Qc.

Lemma coerce_not_text (c : Cell) :
  coerce to_number c = NaN \/ exists q, coerce to_number c = Num q.
Proof.
  destruct c as [| s | q]; simpl; eauto.
  destruct (to_number s); eauto.
Qed.

Lemma coerce_idem (c : Cell) :
  coerce to_number (coerce to_number c) = coerce to_number c.
Proof.
  destruct c as [| s | q]; simpl; auto. destruct (to_number s); reflexivity.
Qed.

Lemma index_coerce_column t a : index (coerce_column to_number t a) = index t.
Proof.
  unfold coerce_column. now destruct (lookup_col a (columns t)).
Qed.

Lemma cell_coerce_column t a n i :
  cell (coerce_column to_number t a) n i
  = if String.eqb n a then coerce to_number (cell t n i)
    else cell t n i.
Proof.
  unfold coerce_column.
  destruct (lookup_col a (columns t)) as [s|] eqn:E.
  - rewrite cell_set_column. destruct (String.eqb n a) eqn:Ena; [|reflexivity].
    apply String.eqb_eq in Ena. subst. unfold cell. now rewrite E.
  - destruct (String.eqb n a) eqn:Ena; [|reflexivity].
    apply String.eqb_eq in Ena. subst. unfold cell. now rewrite E.
Qed.

Lemma has_column_coerce_column t a n :
  has_column n (coerce_column to_number t a) = has_column n t.
Proof.
  unfold coerce_column.
  destruct (lookup_col a (columns t)) as [s|] eqn:E; [|reflexivity].
  rewrite has_column_set_column.
  destruct (String.eqb n a) eqn:Ena; [|reflexivity].
  apply String.eqb_eq in Ena. subst. unfold has_column. now rewrite E.
Qed.

Lemma lookup_coerce_column_other t a n :
  String.eqb n a = false ->
  lookup_col n (columns (coerce_column to_number t a))
  = lookup_col n (columns t).
Proof.
  intros H. unfold coerce_column.
  destruct (lookup_col a (columns t)); [|reflexivity].
  now rewrite lookup_set_column, H.
Qed.

Lemma ambiguous_coerce_column t a n :
  ambiguous n (coerce_column to_number t a) = ambiguous n t.
Proof.
  unfold coerce_column.
  destruct (lookup_col a (columns t)); [|reflexivity].
  apply ambiguous_set_column.
Qed.

Lemma ambiguous_coerce_fold cols t n :
  ambiguous n (fold_left (coerce_column to_number) cols t) = ambiguous n t.
Proof.
  revert t. induction cols as [| a cols IH]; intros t; simpl; [reflexivity|].
  now rewrite IH, ambiguous_coerce_column.
Qed.

Lemma converted_coerce_column cols t a :
  converted cols (coerce_column to_number t a) = converted cols t.
Proof.
  induction cols as [| c cols IH]; cbn [converted]; [reflexivity|].
  now rewrite ambiguous_coerce_column, IH.
Qed.

Lemma clash_coerce_column cols t a :
  existsb (fun c => ambiguous c (coerce_column to_number t a)) cols
  = existsb (fun c => ambiguous c t) cols.
Proof.
  induction cols as [| c cols IH]; cbn [existsb]; [reflexivity|].
  now rewrite ambiguous_coerce_column, IH.
Qed.

Lemma converted_all cols t :
  existsb (fun c => ambiguous c t) cols = false -> converted cols t = cols.
Proof.
  induction cols as [| c cols IH]; cbn [converted existsb]; [reflexivity|].
  intros H. apply orb_false_elim in H as [Hc Hr].
  now rewrite Hc, (IH Hr).
Qed.

Lemma index_coerce_fold cols t :
  index (fold_left (coerce_column to_number) cols t) = index t.
Proof.
  revert t. induction cols as [| a cols IH]; intros t; simpl; [reflexivity|].
  now rewrite IH, index_coerce_column.
Qed.

Lemma has_column_coerce_fold cols t n :
  has_column n (fold_left (coerce_column to_number) cols t) = has_column n t.
Proof.
  revert t. induction cols as [| a cols IH]; intros t; simpl; [reflexivity|].
  now rewrite IH, has_column_coerce_column.
Qed.

Lemma cell_coerce_fold cols t n i :
  cell (fold_left (coerce_column to_number) cols t) n i
  = if existsb (String.eqb n) cols then coerce to_number (cell t n i)
    else cell t n i.
Proof.
  revert t. induction cols as [| a cols IH]; intros t; simpl; [reflexivity|].
  rewrite IH, cell_coerce_column.
  destruct (String.eqb n a); simpl.
  - rewrite coerce_idem. now destruct (existsb (String.eqb n) cols).
  - reflexivity.
Qed.

Lemma lookup_coerce_fold_other cols t n :
  existsb (String.eqb n) cols = false ->
  lookup_col n (columns (fold_left (coerce_column to_number) cols t))
  = lookup_col n (columns t).
Proof.
  revert t. induction cols as [| a cols IH]; intros t; simpl; [reflexivity|].
  intros H. apply orb_false_elim in H as [Ha Hc].
  now rewrite IH, lookup_coerce_column_other.
Qed.

End Coercion.

(** ** Grouping *)

Lemma Cell_eqb_eq (a b : Cell) : Cell_eqb a b = true -> a = b.
Proof.
  destruct a as [| s | p], b as [| t | q]; cbn [Cell_eqb];
    try discriminate; try reflexivity.
  - intros H. apply String.eqb_eq in H. now subst.
  - intros H. apply Qc_eqb_eq in H. now subst.
Qed.



Lemma Qc_above (k h : Qc) :
  Qc_ltb k h = false -> Qc_eqb k h = false -> (h < k)%Qc.
Proof.
  intros Hlt Heq. destruct (Qc_dec k h) as [[H | H] | H].
  - apply Qc_ltb_lt in H. congruence.
  - exact H.
  - apply Qc_eqb_eq in H. congruence.
Qed.

Lemma In_insert_key (x k : Qc) (l : list Qc) :
  In x (insert_key k l) <-> x = k \/ In x l.
Proof.
  induction l as [| h r IH]; cbn [insert_key In].
  - intuition.
  - destruct (Qc_ltb k h) eqn:Hlt; [cbn [In]; intuition|].
    destruct (Qc_eqb k h) eqn:Heq.
    + apply Qc_eqb_eq in Heq. subst h. cbn [In]. intuition.
    + cbn [In]. rewrite IH. intuition.
Qed.

Lemma insert_key_sorted (k : Qc) (l : list Qc) :
  StronglySorted Qclt l -> StronglySorted Qclt (insert_key k l).
Proof.
  induction l as [| h r IH]; cbn [insert_key]; intros Hs.
  - constructor; [constructor | constructor].
  - apply StronglySorted_inv in Hs as [Hr Hh].
    destruct (Qc_ltb k h) eqn:Hlt.
    + apply Qc_ltb_lt in Hlt. constructor.
      * constructor; assumption.
      * constructor; [exact Hlt|].
        rewrite Forall_forall in Hh |- *. intros x Hx.
        apply Qclt_trans with h; auto.
    + destruct (Qc_eqb k h) eqn:Heq.
      * constructor; assumption.
      * pose proof (Qc_above _ _ Hlt Heq) as Hhk. constructor.
        -- apply IH. exact Hr.
        -- rewrite Forall_forall in Hh |- *. intros x Hx.
           apply In_insert_key in Hx as [-> | Hx]; auto.
Qed.

Lemma sorted_NoDup (l : list Qc) : StronglySorted Qclt l -> NoDup l.
Proof.
  induction l as [| h r IH]; intros Hs; [constructor|].
  apply StronglySorted_inv in Hs as [Hr Hh]. constructor.
  - intros Hin. rewrite Forall_forall in Hh.
    exact (Qclt_not_eq _ _ (Hh _ Hin) eq_refl).
  - apply IH. exact Hr.
Qed.

Lemma group_keys_sorted (t : DataFrame) (key : string) :
  StronglySorted Qclt (group_keys t key).
Proof.
  unfold group_keys. induction (index t) as [| i r IH]; cbn [fold_right].
  - constructor.
  - destruct (cell t key i); try exact IH. now apply insert_key_sorted.
Qed.

Lemma In_group_keys (t : DataFrame) (key : string) (k : Qc) :
  In k (group_keys t key) <->
  exists i, In i (index t) /\ cell t key i = Num k.
Proof.
  unfold group_keys. induction (index t) as [| i r IH]; cbn [fold_right In].
  - split; [tauto | intros (i & [] & _)].
  - destruct (cell t key i) as [| s | q] eqn:E.
    + rewrite IH. split.
      * intros (j & Hj & Hc). eauto.
      * intros (j & [<- | Hj] & Hc); [congruence | eauto].
    + rewrite IH. split.
      * intros (j & Hj & Hc). eauto.
      * intros (j & [<- | Hj] & Hc); [congruence | eauto].
    + rewrite In_insert_key, IH. split.
      * intros [-> | (j & Hj & Hc)]; eauto.
      * intros (j & [<- | Hj] & Hc); [left; congruence | right; eauto].
Qed.

Lemma map_fst_groupby_mean (t : DataFrame) (key val : string) :
  map fst (groupby_mean t key val) = group_keys t key.
Proof.
  unfold groupby_mean. rewrite map_map. cbn [fst]. apply map_id.
Qed.

Lemma group_values_rows (t : DataFrame) (key val : string) (k : Qc) :
  (forall i, In i (index t) -> exists v, cell t val i = Num v) ->
  Forall2 (fun i v => cell t val i = Num v)
          (filter (fun i => cell_is k (cell t key i)) (index t))
          (group_values t key val k).
Proof.
  unfold group_values. intros Hnum.
  assert (H : forall i,
             In i (filter (fun i => cell_is k (cell t key i)) (index t)) ->
             exists v, cell t val i = Num v).
  { intros i Hi. apply filter_In in Hi as [Hi _]. auto. }
  induction (filter (fun i => cell_is k (cell t key i)) (index t))
    as [| i r IH]; cbn [flat_map].
  - constructor.
  - destruct (H i (or_introl eq_refl)) as [v Hv]. rewrite Hv. cbn [app].
    constructor; [exact Hv|]. apply IH. intros j Hj. apply H. now right.
Qed.

(** What [groupby_mean] returns on a table whose value column has no
    missing cell: one row per distinct key, ascending, each with the
    arithmetic mean of the values of the rows with that key. *)
Lemma groupby_mean_spec (t : DataFrame) (key val : string) :
  (forall i, In i (index t) -> exists v, cell t val i = Num v) ->
  StronglySorted Qclt (map fst (groupby_mean t key val))
  /\ NoDup (map fst (groupby_mean t key val))
  /\ (forall k, In k (map fst (groupby_mean t key val)) <->
                exists i, In i (index t) /\ cell t key i = Num k)
  /\ (forall k m, In (k, m) (groupby_mean t key val) ->
        exists vs,
          vs <> []
          /\ Forall2 (fun i v => cell t val i = Num v)
                     (filter (fun i => cell_is k (cell t key i)) (index t))
                     vs
          /\ m = Num (Qc_mean vs)).
Proof.
  intros Hnum. rewrite map_fst_groupby_mean.
  split; [apply group_keys_sorted|].
  split; [apply sorted_NoDup, group_keys_sorted|].
  split; [apply In_group_keys|].
  intros k m Hin. unfold groupby_mean in Hin.
  apply in_map_iff in Hin as (k' & Heq & Hk). injection Heq as -> <-.
  pose proof (group_values_rows t key val k Hnum) as HF.
  exists (group_values t key val k).
  assert (Hne : group_values t key val k <> []).
  { apply In_group_keys in Hk as (i & Hi & Hc). intros E. rewrite E in HF.
    inversion HF as [Hnil |]. 
    assert (Hin : In i (filter (fun i => cell_is k (cell t key i))
                               (index t))).
    { apply filter_In. split; [exact Hi|]. now apply cell_is_Num. }
    rewrite <- Hnil in Hin. destruct Hin. }
  split; [exact Hne|]. split; [exact HF|].
  unfold mean_cell. destruct (group_values t key val k); [congruence|].
  reflexivity.
Qed.

(** ** The stages of the script, executed symbolically *)

Ltac step :=
  cbv beta iota zeta delta
      [bind ret exit raise emit print makedirs set_df set_sla_pso_df
       set_vm_scaling_grouped set_host_scaling_grouped
       set_landscape_variation_data get_out_dir get_df get_sla_pso_df
       as_series to_numeric_of
       out_dir trace df sla_pso_df vm_scaling_grouped host_scaling_grouped
       landscape_variation_data fst snd].

Lemma ambiguous_select (m : nat -> bool) (t : DataFrame) n :
  ambiguous n (select m t) = ambiguous n t.
Proof. reflexivity. Qed.

Lemma clash_free (t : DataFrame) :
  numeric_clash t = false <->
  forall c, In c numeric_cols -> ambiguous c t = false.
Proof.
  unfold numeric_clash. induction numeric_cols as [| a r IH]; cbn [existsb In].
  - split; [intros _ c [] | reflexivity].
  - rewrite orb_false_iff, IH. split.
    + intros [Ha Hr] c [<- | Hc]; auto.
    + intros H. split; [apply H; now left | intros c Hc; apply H; now right].
Qed.

Section Stages.

Variable to_number : string -> option Qc.

Lemma critical_present (t : DataFrame) :
  missing_columns critical_cols t = [] ->
  has_column "Algorithm" t = true /\ has_column "NumVMs" t = true
  /\ has_column "NumHosts" t = true /\ has_column "Landscape" t = true
  /\ has_column "StdDev_Host_CPU_Util(%)" t = true.
Proof.
  intros H. pose proof (missing_columns_nil _ _ H) as P.
  repeat split; apply P; simpl; tauto.
Qed.

Lemma fold_df_numeric t0 :
  fold_left (coerce_column to_number) numeric_cols (strip_columns t0)
  = df_numeric to_number t0.
Proof. unfold df_numeric. reflexivity. Qed.

Lemma fold_df_stopped t0 :
  fold_left (coerce_column to_number)
            (converted numeric_cols (strip_columns t0)) (strip_columns t0)
  = df_stopped to_number t0.
Proof. unfold df_stopped. reflexivity. Qed.

Lemma fold_df_clean t0 :
  dropna_rows critical_cols (df_numeric to_number t0) = df_clean to_number t0.
Proof. unfold df_clean. reflexivity. Qed.

Lemma fold_sla_pso t0 :
  with_landscape_desc (algorithm_rows (df_clean to_number t0))
  = sla_pso to_number t0.
Proof. unfold sla_pso. reflexivity. Qed.

Lemma columns_df_clean t0 :
  columns (df_clean to_number t0) = columns (df_numeric to_number t0).
Proof. unfold df_clean, dropna_rows. apply columns_select. Qed.

Lemma has_column_df_clean t0 n :
  has_column n (df_clean to_number t0)
  = has_column n (df_numeric to_number t0).
Proof. unfold df_clean, dropna_rows. apply has_column_select. Qed.

Lemma cell_df_clean t0 n i :
  cell (df_clean to_number t0) n i = cell (df_numeric to_number t0) n i.
Proof. unfold df_clean, dropna_rows. apply cell_select. Qed.

(** No step of the cleaning changes which names several columns
    carry. *)
Lemma ambiguous_df_numeric t0 n :
  ambiguous n (df_numeric to_number t0) = ambiguous n (strip_columns t0).
Proof. unfold df_numeric. apply ambiguous_coerce_fold. Qed.

Lemma ambiguous_df_clean t0 n :
  ambiguous n (df_clean to_number t0) = ambiguous n (strip_columns t0).
Proof.
  unfold df_clean, dropna_rows. rewrite ambiguous_select.
  apply ambiguous_df_numeric.
Qed.

Lemma ambiguous_sla_pso t0 n :
  ambiguous n (sla_pso to_number t0) = ambiguous n (strip_columns t0).
Proof.
  unfold sla_pso, with_landscape_desc. rewrite ambiguous_set_column.
  unfold algorithm_rows. rewrite ambiguous_select.
  apply ambiguous_df_clean.
Qed.

(** No step of the cleaning touches the dtype of [Algorithm]. *)
Lemma algorithm_dtype_as_read t0 :
  algorithm_dtype (df_clean to_number t0)
  = algorithm_dtype (strip_columns t0).
Proof.
  unfold algorithm_dtype. rewrite columns_df_clean. unfold df_numeric.
  rewrite lookup_coerce_fold_other by (vm_compute; reflexivity).
  reflexivity.
Qed.

Lemma lookup_sla_pso t0 n :
  lookup_col n (columns (sla_pso to_number t0))
  = if String.eqb n "Landscape_Desc"
    then Some (mkSeries DObject
                 (fun i => landscape_desc
                             (cell (algorithm_rows (df_clean to_number t0))
                                   "Landscape" i)))
    else lookup_col n (columns (df_numeric to_number t0)).
Proof.
  unfold sla_pso, with_landscape_desc. rewrite lookup_set_column.
  unfold algorithm_rows at 2.
  rewrite columns_select, columns_df_clean. reflexivity.
Qed.

Lemma has_column_sla_pso t0 n :
  has_column n (sla_pso to_number t0)
  = String.eqb n "Landscape_Desc" || has_column n (df_numeric to_number t0).
Proof.
  unfold has_column. rewrite lookup_sla_pso.
  destruct (String.eqb n "Landscape_Desc"); cbv beta iota delta [orb];
    reflexivity.
Qed.

Lemma unique_of_eq (t : DataFrame) (name : string) (s : State) :
  has_column name t = true ->
  unique_of t name s
  = if ambiguous name t then (Raise AttributeError, s)
    else (Ok (unique t name), s).
Proof.
  intros H. destruct (has_column_lookup _ _ H) as [x E].
  unfold unique_of, getitem. rewrite E. step.
  destruct (ambiguous name t); reflexivity.
Qed.

Lemma coerce_round_eq col d tr t f g h l :
  coerce_round to_number col (mkState d tr (Some t) f g h l) =
  if ambiguous col t
  then (Raise TypeError, mkState d tr (Some t) f g h l)
  else (Ok tt, mkState d tr (Some (coerce_column to_number t col)) f g h l).
Proof.
  unfold coerce_round. step. destruct (has_column col t) eqn:H.
  - destruct (has_column_lookup _ _ H) as [x E].
    unfold getitem, coerce_column. rewrite E. step.
    destruct (ambiguous col t); reflexivity.
  - destruct (ambiguous col t) eqn:A.
    + apply ambiguous_present in A. congruence.
    + unfold coerce_column. unfold has_column in H.
      destruct (lookup_col col (columns t)); [discriminate H | reflexivity].
Qed.

(** The loop of lines 46-48 on any list of names: it raises at the
    first name that several columns carry, with the names before it
    converted. *)
Lemma coerce_columns_eq cols d tr t f g h l :
  coerce_columns to_number cols (mkState d tr (Some t) f g h l) =
  (if existsb (fun c => ambiguous c t) cols then Raise TypeError else Ok tt,
   mkState d tr
     (Some (fold_left (coerce_column to_number) (converted cols t) t))
     f g h l).
Proof.
  revert t. induction cols as [| a cols IH]; intros t.
  - reflexivity.
  - cbn [coerce_columns existsb converted].
    unfold bind at 1. rewrite coerce_round_eq.
    destruct (ambiguous a t) eqn:A; [reflexivity|].
    rewrite IH, clash_coerce_column, converted_coerce_column. reflexivity.
Qed.

Lemma clean_eq d tr t0 :
  clean to_number (mkState d tr (Some t0) None None None None) =
  let t1 := strip_columns t0 in
  if has_column "Algorithm" t1 then
    if ambiguous "Algorithm" t1 then
      (Raise AttributeError,
       mkState d (tr ++ [ Print UniqueAlgorithmsHeader ])
               (Some t1) None None None None)
    else
      let tr2 := tr ++ [ Print UniqueAlgorithmsHeader;
                         Print (Values (unique t1 "Algorithm")) ] in
      if numeric_clash t1 then
        (Raise TypeError,
         mkState d tr2 (Some (df_stopped to_number t0)) None None None None)
      else
        match missing_columns critical_cols (df_numeric to_number t0) with
        | [] =>
            match algorithm_dtype (df_clean to_number t0) with
            | DObject =>
                if ambiguous "Landscape_Desc" (sla_pso to_number t0) then
                  (Raise AttributeError,
                   mkState d (tr2 ++ describe_head (sla_pso to_number t0))
                           (Some (df_clean to_number t0))
                           (Some (sla_pso to_number t0)) None None None)
                else
                  (Ok tt,
                   mkState d (tr2 ++ describe_lines (sla_pso to_number t0))
                           (Some (df_clean to_number t0))
                           (Some (sla_pso to_number t0)) None None None)
            | DNumeric =>
                (Raise AttributeError,
                 mkState d tr2 (Some (df_clean to_number t0))
                         None None None None)
            end
        | m =>
            (Raise (KeyError m),
             mkState d tr2 (Some (df_numeric to_number t0))
                     None None None None)
        end
  else
    (Exit,
     mkState d (tr ++ [ Print UniqueAlgorithmsHeader;
                        Print ErrNoAlgorithmColumn ])
             (Some t1) None None None None).
Proof.
  unfold clean, strip_column_names, check_algorithm. step.
  destruct (has_column "Algorithm" (strip_columns t0)) eqn:Halg; step.
  2:{ rewrite <- app_assoc. reflexivity. }
  rewrite (unique_of_eq _ _ _ Halg).
  destruct (ambiguous "Algorithm" (strip_columns t0)) eqn:Hamb; step.
  { reflexivity. }
  rewrite coerce_columns_eq. rewrite fold_df_stopped.
  fold (numeric_clash (strip_columns t0)).
  destruct (numeric_clash (strip_columns t0)) eqn:Hclash; step.
  { rewrite <- app_assoc. reflexivity. }
  unfold df_stopped. unfold numeric_clash in Hclash.
  rewrite (converted_all _ _ Hclash), fold_df_numeric.
  fold (numeric_clash (strip_columns t0)) in Hclash.
  pose proof (proj1 (clash_free _) Hclash) as Hfree.
  unfold dropna. step.
  destruct (missing_columns critical_cols (df_numeric to_number t0)) eqn:Hm.
  2:{ step. rewrite <- app_assoc. reflexivity. }
  step. rewrite fold_df_clean.
  destruct (critical_present _ Hm) as (Ha & Hv & Hh & Hl & _).
  destruct (has_column_lookup _ _ Ha) as [sa Ea].
  unfold filter_algorithm, getitem, algorithm_dtype. step.
  rewrite columns_df_clean, Ea, ambiguous_df_clean, Hamb. step.
  destruct (dtype sa); step.
  2:{ rewrite <- app_assoc. reflexivity. }
  unfold add_landscape_desc. step.
  unfold algorithm_rows at 1. rewrite has_column_select, has_column_df_clean.
  rewrite Hl. step. rewrite fold_sla_pso.
  unfold describe. step.
  assert (Hv' : has_column "NumVMs" (sla_pso to_number t0) = true).
  { rewrite has_column_sla_pso, Hv. apply orb_true_r. }
  assert (Hh' : has_column "NumHosts" (sla_pso to_number t0) = true).
  { rewrite has_column_sla_pso, Hh. apply orb_true_r. }
  assert (Hd' : has_column "Landscape_Desc" (sla_pso to_number t0) = true).
  { rewrite has_column_sla_pso. reflexivity. }
  assert (Av : ambiguous "NumVMs" (sla_pso to_number t0) = false).
  { rewrite ambiguous_sla_pso. apply Hfree. cbn [numeric_cols In]. tauto. }
  assert (Ah : ambiguous "NumHosts" (sla_pso to_number t0) = false).
  { rewrite ambiguous_sla_pso. apply Hfree. cbn [numeric_cols In]. tauto. }
  rewrite (unique_of_eq _ _ _ Hv'), Av. step.
  rewrite (unique_of_eq _ _ _ Hh'), Ah. step.
  rewrite (unique_of_eq _ _ _ Hd').
  unfold describe_lines, describe_head.
  destruct (ambiguous "Landscape_Desc" (sla_pso to_number t0)); step;
    rewrite <- !app_assoc; reflexivity.
Qed.

Variable w : World.

Lemma render_eq k x y prefix d tr c f g h l :
  render w k x y prefix (mkState d tr c f g h l) =
  let p := plot_path k y prefix in
  if plot_raises w k p
  then (Raise (PlotError k p), mkState d (tr ++ [ PlotCall k p ]) c f g h l)
  else (Ok tt,
        mkState d (tr ++ [ PlotCall k p; Savefig p; Print (PlotSaved p) ])
                c f g h l).
Proof.
  unfold render. step.
  destruct (plot_raises w k (plot_path k y prefix)); step.
  - reflexivity.
  - rewrite <- !app_assoc. reflexivity.
Qed.

Lemma slice_eq (t : DataFrame) a p b q s :
  has_column a t = true -> has_column b t = true ->
  slice t a p b q s = (Ok (slice_rows t a p b q), s).
Proof.
  intros Ha Hb.
  destruct (has_column_lookup _ _ Ha) as [sa Ea].
  destruct (has_column_lookup _ _ Hb) as [sb Eb].
  unfold slice, getitem. rewrite Ea, Eb. reflexivity.
Qed.

Lemma groupby_agg_mean_eq (t : DataFrame) key val s :
  has_column key t = true -> has_column val t = true ->
  groupby_agg_mean t key val s = (Ok (groupby_mean t key val), s).
Proof.
  intros Ha Hb.
  destruct (has_column_lookup _ _ Ha) as [sa Ea].
  destruct (has_column_lookup _ _ Hb) as [sb Eb].
  unfold groupby_agg_mean, getitem. rewrite Ea, Eb. reflexivity.
Qed.

Lemma has_column_slice_rows (t : DataFrame) a p b q n :
  has_column n (slice_rows t a p b q) = has_column n t.
Proof. unfold slice_rows. apply has_column_select. Qed.

Lemma ambiguous_slice_rows (t : DataFrame) a p b q n :
  ambiguous n (slice_rows t a p b q) = ambiguous n t.
Proof. unfold slice_rows. apply ambiguous_select. Qed.

Lemma vm_scaling_eq d tr c f g h l :
  has_column "NumHosts" f = true -> has_column "Landscape" f = true ->
  has_column "NumVMs" f = true ->
  has_column "StdDev_Host_CPU_Util(%)" f = true ->
  vm_scaling w (mkState d tr c (Some f) g h l) =
  if empty (vm_scaling_data f)
  then (Ok tt, mkState d (tr ++ [ Print (NoData VMScaling) ]) c (Some f) g h l)
  else
    let grp := groupby_mean (vm_scaling_data f) "NumVMs"
                            "StdDev_Host_CPU_Util(%)" in
    if plot_raises w Line vm_plot
    then (Raise (PlotError Line vm_plot),
          mkState d (tr ++ [ PlotCall Line vm_plot ]) c (Some f) (Some grp) h l)
    else (Ok tt,
          mkState d (tr ++ [ PlotCall Line vm_plot; Savefig vm_plot;
                             Print (PlotSaved vm_plot) ])
                  c (Some f) (Some grp) h l).
Proof.
  intros Hh Hl Hv Hs. unfold vm_scaling. step.
  rewrite (slice_eq _ _ _ _ _ _ Hh Hl). step.
  unfold vm_scaling_data.
  destruct (empty _) eqn:He; cbv beta iota delta [negb]; step.
  - reflexivity.
  - rewrite groupby_agg_mean_eq
      by (rewrite has_column_slice_rows; assumption).
    step. unfold plot_line_single. rewrite render_eq. reflexivity.
Qed.

Lemma host_scaling_eq d tr c f g h l :
  has_column "NumHosts" f = true -> has_column "Landscape" f = true ->
  has_column "NumVMs" f = true ->
  has_column "StdDev_Host_CPU_Util(%)" f = true ->
  host_scaling w (mkState d tr c (Some f) g h l) =
  if empty (host_scaling_data f)
  then (Ok tt,
        mkState d (tr ++ [ Print (NoData HostScaling) ]) c (Some f) g h l)
  else
    let grp := groupby_mean (host_scaling_data f) "NumHosts"
                            "StdDev_Host_CPU_Util(%)" in
    if plot_raises w Line host_plot
    then (Raise (PlotError Line host_plot),
          mkState d (tr ++ [ PlotCall Line host_plot ])
                  c (Some f) g (Some grp) l)
    else (Ok tt,
          mkState d (tr ++ [ PlotCall Line host_plot; Savefig host_plot;
                             Print (PlotSaved host_plot) ])
                  c (Some f) g (Some grp) l).
Proof.
  intros Hh Hl Hv Hs. unfold host_scaling. step.
  rewrite (slice_eq _ _ _ _ _ _ Hv Hl). step.
  unfold host_scaling_data.
  destruct (empty _) eqn:He; cbv beta iota delta [negb]; step.
  - reflexivity.
  - rewrite groupby_agg_mean_eq
      by (rewrite has_column_slice_rows; assumption).
    step. unfold plot_line_single. rewrite render_eq. reflexivity.
Qed.

Lemma landscape_variation_eq d tr c f g h l :
  has_column "NumHosts" f = true -> has_column "NumVMs" f = true ->
  has_column "Landscape_Desc" f = true ->
  ambiguous "Landscape_Desc" f = false ->
  landscape_variation w (mkState d tr c (Some f) g h l) =
  if empty (landscape_slice f)
  then (Ok tt,
        mkState d (tr ++ [ Print (NoData LandscapeVariation) ])
                c (Some f) g h (Some (landscape_slice f)))
  else
    let data := Some (with_categories (landscape_slice f)) in
    let bar := landscape_bar_plot in
    let curve := landscape_curve_plot in
    let box := landscape_box_plot in
    if plot_raises w Bar bar
    then (Raise (PlotError Bar bar),
          mkState d (tr ++ [ PlotCall Bar bar ]) c (Some f) g h data)
    else if plot_raises w Line curve
    then (Raise (PlotError Line curve),
          mkState d (tr ++ [ PlotCall Bar bar; Savefig bar;
                             Print (PlotSaved bar); PlotCall Line curve ])
                  c (Some f) g h data)
    else if plot_raises w Boxplot box
    then (Raise (PlotError Boxplot box),
          mkState d (tr ++ [ PlotCall Bar bar; Savefig bar;
                             Print (PlotSaved bar); PlotCall Line curve;
                             Savefig curve; Print (PlotSaved curve);
                             PlotCall Boxplot box ])
                  c (Some f) g h data)
    else (Ok tt,
          mkState d (tr ++ [ PlotCall Bar bar; Savefig bar;
                             Print (PlotSaved bar); PlotCall Line curve;
                             Savefig curve; Print (PlotSaved curve);
                             PlotCall Boxplot box; Savefig box;
                             Print (PlotSaved box) ])
                  c (Some f) g h data).
Proof.
  intros Hh Hv Hd Ad. unfold landscape_variation. step.
  rewrite (slice_eq _ _ _ _ _ _ Hv Hh). step.
  unfold landscape_slice.
  destruct (empty _) eqn:He; cbv beta iota delta [negb]; step.
  - reflexivity.
  - assert (Hd' : has_column "Landscape_Desc"
                    (slice_rows f "NumVMs" fixed_vms_landscape "NumHosts"
                                fixed_hosts_landscape) = true)
      by (rewrite has_column_slice_rows; assumption).
    rewrite (unique_of_eq _ _ _ Hd'), ambiguous_slice_rows, Ad. step.
    unfold plot_bar_single, plot_line_single, plot_boxplot_single.
    unfold landscape_bar_plot, landscape_curve_plot, landscape_box_plot.
    rewrite render_eq. cbv zeta.
    destruct (plot_raises w Bar _); [reflexivity|].
    rewrite render_eq. cbv zeta.
    destruct (plot_raises w Line _);
      [rewrite <- !app_assoc; reflexivity|].
    rewrite render_eq. cbv zeta.
    destruct (plot_raises w Boxplot _);
      rewrite <- !app_assoc; reflexivity.
Qed.

Lemma run_eq :
  run to_number w =
  match read_csv w with
  | FileNotFoundError =>
      (Exit,
       mkState true
         (setup_trace w
          ++ [ ReadCsv CSV_FILENAME; Print (ErrNotFound CSV_FILENAME) ])
         None None None None None)
  | ReadError e =>
      (Exit,
       mkState true
         (setup_trace w ++ [ ReadCsv CSV_FILENAME; Print (ErrLoading e) ])
         None None None None None)
  | Parsed t0 =>
      if has_column "Algorithm" (strip_columns t0) then
        if ambiguous "Algorithm" (strip_columns t0) then
          (Raise AttributeError,
           mkState true (loaded_trace w ++ [ Print UniqueAlgorithmsHeader ])
                   (Some (strip_columns t0)) None None None None)
        else if numeric_clash (strip_columns t0) then
          (Raise TypeError,
           mkState true (checked_trace w t0)
                   (Some (df_stopped to_number t0)) None None None None)
        else
          match missing_columns critical_cols (df_numeric to_number t0) with
          | [] =>
              match algorithm_dtype (df_clean to_number t0) with
              | DObject =>
                  if ambiguous "Landscape_Desc" (sla_pso to_number t0) then
                    (Raise AttributeError,
                     mkState true
                       (checked_trace w t0
                        ++ describe_head (sla_pso to_number t0))
                       (Some (df_clean to_number t0))
                       (Some (sla_pso to_number t0)) None None None)
                  else analyse w (analysis_start to_number w t0)
              | DNumeric =>
                  (Raise AttributeError,
                   mkState true (checked_trace w t0)
                           (Some (df_clean to_number t0)) None None None None)
              end
          | m =>
              (Raise (KeyError m),
               mkState true (checked_trace w t0)
                       (Some (df_numeric to_number t0)) None None None None)
          end
      else
        (Exit,
         mkState true
           (loaded_trace w
            ++ [ Print UniqueAlgorithmsHeader; Print ErrNoAlgorithmColumn ])
           (Some (strip_columns t0)) None None None None)
  end.
Proof.
  assert (Hsetup : ensure_output_dir (initial w)
                   = (Ok tt, mkState true (setup_trace w)
                                     None None None None None)).
  { unfold ensure_output_dir, initial, setup_trace. step.
    destruct (dir_exists w); reflexivity. }
  unfold run, script. step. rewrite Hsetup. unfold load_data. step.
  destruct (read_csv w) as [| e | t0]; step.
  - rewrite <- app_assoc. reflexivity.
  - rewrite <- app_assoc. reflexivity.
  - rewrite clean_eq. cbv zeta.
    unfold analysis_start, checked_trace, loaded_trace.
    rewrite <- !app_assoc.
    destruct (has_column "Algorithm" (strip_columns t0)); [|reflexivity].
    destruct (ambiguous "Algorithm" (strip_columns t0)); [reflexivity|].
    destruct (numeric_clash (strip_columns t0)); [reflexivity|].
    destruct (missing_columns critical_cols (df_numeric to_number t0));
      [|reflexivity].
    destruct (algorithm_dtype (df_clean to_number t0)); [|reflexivity].
    destruct (ambiguous "Landscape_Desc" (sla_pso to_number t0));
      reflexivity.
Qed.

Lemma analysis_columns t0 :
  missing_columns critical_cols (df_numeric to_number t0) = [] ->
  let f := sla_pso to_number t0 in
  has_column "NumVMs" f = true /\ has_column "NumHosts" f = true
  /\ has_column "Landscape" f = true
  /\ has_column "StdDev_Host_CPU_Util(%)" f = true
  /\ has_column "Landscape_Desc" f = true.
Proof.
  intros Hm. destruct (critical_present _ Hm) as (_ & Hv & Hh & Hl & Hs).
  cbv zeta. rewrite !has_column_sla_pso, Hv, Hh, Hl, Hs.
  repeat split; apply orb_true_r.
Qed.

End Stages.

(** Case analysis over the runs of the three analyses: the goal mentions
    [analyse w (analysis_start to_number w t0)], [Hm] says that no
    critical column is missing and [Hld] that one column carries the
    label. *)
Ltac analyse_paths to_number w t0 Hm Hld :=
  let Hv := fresh "Hv" in
  let Hh := fresh "Hh" in
  let Hl := fresh "Hl" in
  let Hs := fresh "Hs" in
  let Hd := fresh "Hd" in
  destruct (analysis_columns to_number t0 Hm) as (Hv & Hh & Hl & Hs & Hd);
  unfold analyse, analysis_start; step;
  rewrite (vm_scaling_eq w _ _ _ _ _ _ _ Hh Hl Hv Hs); cbv zeta;
  destruct (empty (vm_scaling_data (sla_pso to_number t0))) eqn:?Evm;
  [| destruct (plot_raises w Line vm_plot) eqn:?Rvm ];
  step;
  try (rewrite (host_scaling_eq w _ _ _ _ _ _ _ Hh Hl Hv Hs); cbv zeta;
       destruct (empty (host_scaling_data (sla_pso to_number t0)))
         eqn:?Ehost;
       [| destruct (plot_raises w Line host_plot) eqn:?Rhost ];
       step;
       try (rewrite (landscape_variation_eq w _ _ _ _ _ _ _ Hh Hv Hd Hld);
            cbv zeta;
            destruct (empty (landscape_slice (sla_pso to_number t0)))
              eqn:?Elsc;
            [| destruct (plot_raises w Bar landscape_bar_plot) eqn:?Rbar;
               [| destruct (plot_raises w Line landscape_curve_plot)
                    eqn:?Rcurve;
                  [| destruct (plot_raises w Boxplot landscape_box_plot)
                       eqn:?Rbox ] ] ];
            step)).

(** Case analysis over all runs of the script. *)
Ltac run_paths to_number w :=
  rewrite (run_eq to_number w);
  let t0 := fresh "t0" in
  let Hread := fresh "Hread" in
  let Halg := fresh "Halg" in
  let Hamb := fresh "Hamb" in
  let Hclash := fresh "Hclash" in
  let Hm := fresh "Hm" in
  let Hdt := fresh "Hdt" in
  let Hld := fresh "Hld" in
  destruct (read_csv w) as [| ? | t0] eqn:Hread;
  [ | | destruct (has_column "Algorithm" (strip_columns t0)) eqn:Halg;
        [ destruct (ambiguous "Algorithm" (strip_columns t0)) eqn:Hamb;
          [ | destruct (numeric_clash (strip_columns t0)) eqn:Hclash;
              [ | destruct (missing_columns critical_cols
                              (df_numeric to_number t0)) eqn:Hm;
                  [ destruct (algorithm_dtype (df_clean to_number t0))
                      eqn:Hdt;
                    [ destruct (ambiguous "Landscape_Desc"
                                  (sla_pso to_number t0)) eqn:Hld;
                      [ | analyse_paths to_number w t0 Hm Hld ]
                    | ]
                  | ] ] ]
        | ] ].

Ltac flat_trace :=
  unfold checked_trace, loaded_trace, describe_lines, describe_head;
  rewrite <- ?app_assoc; cbn [app].

Section Runs.

Variable to_number : string -> option Qc.


(** C5. When the header, column names trimmed, has no [Algorithm], the
    run stops by [exit()] right after printing the diagnostic: the table
    is the one that was read with only its column names trimmed (no
    numeric conversion took place), nothing was filtered or aggregated,
    and no plot call was made. *)
Theorem missing_algorithm_exits (w : World) (t0 : DataFrame) :
  read_csv w = Parsed t0 ->
  ~ In "Algorithm" (column_names (strip_columns t0)) ->
  outcome to_number w = Exit
  /\ (exists pre, stdout (final to_number w) = pre ++ [ ErrNoAlgorithmColumn ])
  /\ df (final to_number w) = Some (strip_columns t0)
  /\ sla_pso_df (final to_number w) = None
  /\ vm_scaling_grouped (final to_number w) = None
  /\ host_scaling_grouped (final to_number w) = None
  /\ landscape_variation_data (final to_number w) = None
  /\ plot_calls (final to_number w) = []
  /\ files (final to_number w) = [].
Proof.
  intros Hread Hno. apply has_column_not_In in Hno.
  unfold outcome, final. rewrite run_eq, Hread, Hno.
  cbn [fst snd df sla_pso_df vm_scaling_grouped host_scaling_grouped
       landscape_variation_data].
  unfold stdout, plot_calls, files. cbn [trace].
  unfold loaded_trace, setup_trace.
  destruct (dir_exists w); cbn [app flat_map].
  - repeat split; try reflexivity.
    exists [ Loaded CSV_FILENAME; UniqueAlgorithmsHeader ]. reflexivity.
  - repeat split; try reflexivity.
    exists [ CreatedOutputDir OUTPUT_DIR; Loaded CSV_FILENAME;
             UniqueAlgorithmsHeader ]. reflexivity.
Qed.

(** C10, as the script has it. When the table has [Algorithm] but
    lacks one of the other critical columns, and neither [Algorithm]
    nor one of the 13 numeric names is the trimmed name of two columns
    (lines 34 and 48 raise first otherwise), the run gets to [dropna],
    which raises a [KeyError] that names the column and that nothing
    catches: the run does not end by [exit()], its status is 1, and the
    last line printed is the list of algorithm names, not a
    diagnostic. *)
Theorem missing_critical_column_raises (w : World) (t0 : DataFrame)
  (c : string) :
  read_csv w = Parsed t0 ->
  In "Algorithm" (column_names (strip_columns t0)) ->
  (forall n, In n ("Algorithm" :: numeric_cols) ->
             ambiguous n (strip_columns t0) = false) ->
  In c [ "NumVMs"; "NumHosts"; "Landscape"; "StdDev_Host_CPU_Util(%)" ] ->
  ~ In c (column_names (strip_columns t0)) ->
  (exists missing,
     outcome to_number w = Raise (KeyError missing) /\ In c missing)
  /\ outcome to_number w <> Exit
  /\ exit_status (outcome to_number w) = 1%Z
  /\ (exists pre,
        stdout (final to_number w)
        = pre ++ [ Values (unique (strip_columns t0) "Algorithm") ])
  /\ sla_pso_df (final to_number w) = None.
Proof.
  intros Hread Halg Hone Hc Hno.
  apply has_column_In in Halg. apply has_column_not_In in Hno.
  assert (Hin : In c (missing_columns critical_cols
                        (df_numeric to_number t0))).
  { apply missing_columns_In. split.
    - unfold critical_cols. right. exact Hc.
    - unfold df_numeric. rewrite has_column_coerce_fold. exact Hno. }
  assert (Hamb : ambiguous "Algorithm" (strip_columns t0) = false).
  { apply Hone. left. reflexivity. }
  assert (Hclash : numeric_clash (strip_columns t0) = false).
  { apply clash_free. intros n Hn. apply Hone. right. exact Hn. }
  unfold outcome, final. rewrite run_eq, Hread, Halg, Hamb, Hclash.
  destruct (missing_columns critical_cols (df_numeric to_number t0))
    as [| m ms] eqn:Hm; [destruct Hin|].
  cbn [fst snd sla_pso_df exit_status]. split; [eauto|].
  split; [discriminate|]. split; [reflexivity|]. split; [|reflexivity].
  unfold stdout. cbn [trace].
  unfold checked_trace, loaded_trace, setup_trace.
  destruct (dir_exists w); cbn [app flat_map].
  - exists [ Loaded CSV_FILENAME; UniqueAlgorithmsHeader ]. reflexivity.
  - exists [ CreatedOutputDir OUTPUT_DIR; Loaded CSV_FILENAME;
             UniqueAlgorithmsHeader ]. reflexivity.
Qed.

Ltac observe :=
  cbn [fst snd out_dir trace df sla_pso_df vm_scaling_grouped
       host_scaling_grouped landscape_variation_data exit_status];
  unfold stdout, plot_calls, files; cbn [trace]; flat_trace.

Ltac in_list :=
  repeat first [ left; match goal with |- ?a = ?a => reflexivity end
               | right ].

Ltac split_In :=
  repeat match goal with
         | H : In _ (_ :: _) |- _ => destruct H as [H | H]
         | H : In _ [] |- _ => destruct H
         | H : (_, _) = (_, _) |- _ => injection H as <- <-
         end.

Lemma host_plot_fresh :
  vm_plot <> host_plot /\ landscape_bar_plot <> host_plot
  /\ landscape_curve_plot <> host_plot /\ landscape_box_plot <> host_plot.
Proof.
  repeat split; apply String.eqb_neq; vm_compute; reflexivity.
Qed.

(** A run that has assigned [sla_pso_df] has read a table, found every
    critical column and a text [Algorithm] column; its tables are the
    named ones, and the analyses that follow leave them alone. *)
Lemma reached_analysis (w : World) (f : DataFrame) :
  sla_pso_df (final to_number w) = Some f ->
  exists t0,
    read_csv w = Parsed t0
    /\ missing_columns critical_cols (df_numeric to_number t0) = []
    /\ f = sla_pso to_number t0
    /\ df (final to_number w) = Some (df_clean to_number t0)
    /\ vm_scaling_grouped (final to_number w)
       = if ambiguous "Landscape_Desc" f then None
         else if empty (vm_scaling_data f) then None
         else Some (groupby_mean (vm_scaling_data f) "NumVMs"
                                 "StdDev_Host_CPU_Util(%)").
Proof.
  unfold final.
  run_paths to_number w;
    cbn [snd df sla_pso_df vm_scaling_grouped]; intros H;
    try discriminate H; injection H as <-; exists t0;
    rewrite Hld, ?Evm; repeat split; solve [reflexivity | assumption].
Qed.

(** Such a run has met no name that two columns carry on lines 34 and
    48. *)
Lemma reached_clash_free (w : World) (f : DataFrame) (t0 : DataFrame) :
  sla_pso_df (final to_number w) = Some f ->
  read_csv w = Parsed t0 ->
  forall n, In n ("Algorithm" :: numeric_cols) ->
            ambiguous n (strip_columns t0) = false.
Proof.
  unfold final.
  run_paths to_number w;
    cbn [snd sla_pso_df]; intros H Hr; try discriminate H;
    injection Hr as <-; intros n [<- | Hn];
    solve [ assumption | apply (proj1 (clash_free _) Hclash); exact Hn ].
Qed.

Lemma analysis_reached (w : World) (t0 : DataFrame) :
  read_csv w = Parsed t0 ->
  has_column "Algorithm" (strip_columns t0) = true ->
  ambiguous "Algorithm" (strip_columns t0) = false ->
  numeric_clash (strip_columns t0) = false ->
  missing_columns critical_cols (df_numeric to_number t0) = [] ->
  algorithm_dtype (df_clean to_number t0) = DObject ->
  sla_pso_df (final to_number w) = Some (sla_pso to_number t0)
  /\ df (final to_number w) = Some (df_clean to_number t0).
Proof.
  intros Hread Halg Hamb Hclash Hm Hdt. unfold final.
  rewrite run_eq, Hread, Halg, Hamb, Hclash, Hm, Hdt.
  destruct (ambiguous "Landscape_Desc" (sla_pso to_number t0)) eqn:Hld;
    [split; reflexivity|].
  analyse_paths to_number w t0 Hm Hld; split; reflexivity.
Qed.

(** C6, as the script has it. An empty host-scaling slice does not
    stop the run, but a failing plot call of another analysis does. When
    the run gets to the analyses (the filtered table is assigned and
    line 67 finds one label column), the host-scaling slice is empty and
    no plot call that the run makes fails, the run completes: the
    host-scaling diagnostic is printed, no host-scaling plot is called or
    saved and no host-scaling aggregate is built, the landscape analysis
    runs (its diagnostic, or its three charts), and the last line
    printed is the completion message. *)
Theorem empty_host_slice_is_skipped (w : World) (f : DataFrame) :
  sla_pso_df (final to_number w) = Some f ->
  ambiguous "Landscape_Desc" f = false ->
  empty (host_scaling_data f) = true ->
  (forall k p, In (k, p) (plot_calls (final to_number w)) ->
               plot_raises w k p = false) ->
  outcome to_number w = Ok tt
  /\ In (NoData HostScaling) (stdout (final to_number w))
  /\ (forall k, ~ In (k, host_plot) (plot_calls (final to_number w)))
  /\ ~ In host_plot (files (final to_number w))
  /\ host_scaling_grouped (final to_number w) = None
  /\ (if empty (landscape_slice f)
      then In (NoData LandscapeVariation) (stdout (final to_number w))
      else In landscape_bar_plot (files (final to_number w))
           /\ In landscape_curve_plot (files (final to_number w))
           /\ In landscape_box_plot (files (final to_number w)))
  /\ last (stdout (final to_number w)) UniqueAlgorithmsHeader
     = AnalysisComplete.
Proof.
  destruct host_plot_fresh as (N1 & N2 & N3 & N4).
  assert (Hfresh : forall (k : PlotKind) (l : list (PlotKind * string)),
             In (k, host_plot) l ->
             Forall (fun c => In (snd c) [ vm_plot; landscape_bar_plot;
                                           landscape_curve_plot;
                                           landscape_box_plot ]) l ->
             False).
  { intros k l Hk Hl. rewrite Forall_forall in Hl. specialize (Hl _ Hk).
    cbn [snd In] in Hl.
    destruct Hl as [H | [H | [H | [H | []]]]];
      [exact (N1 H) | exact (N2 H) | exact (N3 H) | exact (N4 H)]. }
  assert (Hfresh' : forall l,
             In host_plot l ->
             Forall (fun c => In c [ vm_plot; landscape_bar_plot;
                                     landscape_curve_plot;
                                     landscape_box_plot ]) l ->
             False).
  { intros l Hk Hl. rewrite Forall_forall in Hl. specialize (Hl _ Hk).
    cbn [In] in Hl.
    destruct Hl as [H | [H | [H | [H | []]]]];
      [exact (N1 H) | exact (N2 H) | exact (N3 H) | exact (N4 H)]. }
  unfold outcome, final.
  run_paths to_number w; observe; unfold setup_trace;
    destruct (dir_exists w); cbn [app flat_map]; intros Hf Ha He Hr;
    try discriminate Hf; injection Hf as <-;
    try (rewrite Ha in Hld; discriminate Hld);
    try (rewrite He in Ehost; discriminate Ehost);
    try match goal with
        | R : plot_raises _ ?k ?p = true |- _ =>
            rewrite (Hr k p) in R by (cbn [In]; in_list); discriminate R
        end;
    rewrite ?Elsc; cbn [app flat_map last];
    (split; [reflexivity|]);
    (split; [cbn [In]; in_list|]);
    (split; [intros k' Hk; apply (Hfresh _ _ Hk);
             repeat (constructor; [cbn [snd In]; in_list|]); constructor|]);
    (split; [intros Hk; apply (Hfresh' _ Hk);
             repeat (constructor; [cbn [In]; in_list|]); constructor|]);
    (split; [reflexivity|]);
    (split; [cbn [In]; repeat split; in_list | reflexivity]).
Qed.

(** C8, as the script has it. A plot call that fails ends the run: the
    exception is the outcome of the run, the failing call is the last
    plot call that was entered, every earlier call succeeded and saved
    its file, and the completion message is never printed. *)
Theorem plot_failure_ends_run (w : World) (k : PlotKind) (p : string) :
  In (k, p) (plot_calls (final to_number w)) ->
  plot_raises w k p = true ->
  outcome to_number w = Raise (PlotError k p)
  /\ (exists earlier,
        plot_calls (final to_number w) = earlier ++ [ (k, p) ]
        /\ Forall (fun c => plot_raises w (fst c) (snd c) = false) earlier
        /\ files (final to_number w) = map snd earlier)
  /\ ~ In AnalysisComplete (stdout (final to_number w)).
Proof.
  unfold outcome, final.
  run_paths to_number w; observe; unfold setup_trace;
    destruct (dir_exists w); cbn [app flat_map]; intros Hin Hr;
    split_In; try congruence;
    (split; [reflexivity|]);
    (split;
     [ match goal with
       | |- exists e, ?l = _ /\ _ => exists (removelast l)
       end;
       cbn [removelast app map snd]; split; [reflexivity|];
       split; [| reflexivity];
       repeat (constructor; [cbn [fst snd]; assumption|]); constructor
     | cbn [In]; intuition discriminate ]).
Qed.


(** *** The rows and cells of the cleaned tables *)

Lemma index_df_numeric t0 : index (df_numeric to_number t0) = index t0.
Proof. unfold df_numeric. rewrite index_coerce_fold. reflexivity. Qed.

Lemma cell_df_numeric t0 c i :
  cell (df_numeric to_number t0) c i
  = if existsb (String.eqb c) numeric_cols
    then coerce to_number (cell (strip_columns t0) c i)
    else cell (strip_columns t0) c i.
Proof. unfold df_numeric. apply cell_coerce_fold. Qed.

Lemma In_df_clean t0 i :
  In i (index (df_clean to_number t0)) <->
  In i (index t0)
  /\ forall c, In c critical_cols ->
               is_nan (cell (df_numeric to_number t0) c i) = false.
Proof.
  unfold df_clean, dropna_rows.
  rewrite index_select, filter_In, index_df_numeric, forallb_forall.
  split; intros [Hi Hc]; (split; [exact Hi|]); intros c Hin;
    specialize (Hc c Hin).
  - now apply negb_true_iff.
  - now apply negb_true_iff.
Qed.

Lemma In_sla_pso t0 i :
  In i (index (sla_pso to_number t0)) <->
  In i (index (df_clean to_number t0))
  /\ is_target (cell (df_clean to_number t0) "Algorithm" i) = true.
Proof.
  unfold sla_pso, with_landscape_desc. rewrite index_set_column.
  unfold algorithm_rows. rewrite index_select, filter_In. reflexivity.
Qed.

Lemma cell_sla_pso t0 n i :
  cell (sla_pso to_number t0) n i
  = if String.eqb n "Landscape_Desc"
    then landscape_desc (cell (df_numeric to_number t0) "Landscape" i)
    else cell (df_numeric to_number t0) n i.
Proof.
  unfold sla_pso, with_landscape_desc. rewrite cell_set_column.
  cbn [values]. unfold algorithm_rows.
  rewrite !cell_select, !cell_df_clean. reflexivity.
Qed.

Lemma is_target_iff (c : Cell) :
  is_target c = true <->
  exists s, c = Str s /\ Text.strip s = target_algorithm.
Proof.
  destruct c as [| s | q]; cbn [is_target].
  - split; [discriminate | intros (s & H & _); discriminate H].
  - rewrite String.eqb_eq. split.
    + intros H. exists s. auto.
    + intros (s' & H & Hs). injection H as <-. exact Hs.
  - split; [discriminate | intros (s & H & _); discriminate H].
Qed.

Lemma numeric_col_facts (c : string) :
  In c numeric_cols ->
  existsb (String.eqb c) numeric_cols = true
  /\ String.eqb c "Landscape_Desc" = false.
Proof.
  unfold numeric_cols. cbn [In]. intros H.
  repeat (destruct H as [<- | H]; [split; vm_compute; reflexivity|]).
  destruct H.
Qed.

Lemma coerced_present (c : Cell) :
  is_nan (coerce to_number c) = false -> exists q, coerce to_number c = Num q.
Proof.
  destruct (coerce_not_text to_number c) as [-> | [q ->]];
    [discriminate | eauto].
Qed.

(** The cells of a row of [sla_pso_df] in terms of the table as read. *)
Lemma sla_pso_row t0 i :
  In i (index (sla_pso to_number t0)) ->
  In i (index t0)
  /\ (exists s, cell (sla_pso to_number t0) "Algorithm" i = Str s
                /\ cell (strip_columns t0) "Algorithm" i = Str s
                /\ Text.strip s = target_algorithm)
  /\ (forall c, In c numeric_cols ->
                cell (sla_pso to_number t0) c i
                = coerce to_number (cell (strip_columns t0) c i))
  /\ (forall c, In c [ "NumVMs"; "NumHosts"; "Landscape";
                       "StdDev_Host_CPU_Util(%)" ] ->
                exists q, cell (sla_pso to_number t0) c i = Num q).
Proof.
  intros Hi0. destruct (proj1 (In_sla_pso t0 i) Hi0) as [Hi1 Ht].
  destruct (proj1 (In_df_clean t0 i) Hi1) as [Hi Hc].
  rewrite cell_df_clean, cell_df_numeric in Ht.
  replace (existsb (String.eqb "Algorithm") numeric_cols) with false in Ht
    by (vm_compute; reflexivity).
  destruct (proj1 (is_target_iff _) Ht) as (s & Hs & Hstrip).
  assert (Hnum : forall c, In c numeric_cols ->
                   cell (sla_pso to_number t0) c i
                   = coerce to_number (cell (strip_columns t0) c i)).
  { intros c Hin. destruct (numeric_col_facts c Hin) as [He Hd].
    rewrite cell_sla_pso, Hd, cell_df_numeric, He. reflexivity. }
  split; [exact Hi|]. split; [| split; [exact Hnum|]].
  - exists s. split; [| split; assumption].
    rewrite cell_sla_pso.
    replace (String.eqb "Algorithm" "Landscape_Desc") with false
      by (vm_compute; reflexivity).
    rewrite cell_df_numeric.
    replace (existsb (String.eqb "Algorithm") numeric_cols) with false
      by (vm_compute; reflexivity).
    exact Hs.
  - intros c Hin.
    assert (Hn : In c numeric_cols).
    { unfold numeric_cols. cbn [In] in Hin |- *.
      destruct Hin as [<- | [<- | [<- | [<- | []]]]]; in_list. }
    assert (Hcr : In c critical_cols).
    { unfold critical_cols. right. exact Hin. }
    specialize (Hc c Hcr). destruct (numeric_col_facts c Hn) as [He _].
    rewrite cell_df_numeric, He in Hc. rewrite (Hnum c Hn).
    exact (coerced_present _ Hc).
Qed.

Lemma critical_numeric (c : string) :
  In c [ "NumVMs"; "NumHosts"; "Landscape"; "StdDev_Host_CPU_Util(%)" ] ->
  In c numeric_cols.
Proof.
  unfold numeric_cols. cbn [In]. intros H.
  destruct H as [<- | [<- | [<- | [<- | []]]]]; in_list.
Qed.

(** C2, as the script has it. Every row of [sla_pso_df] is a row of the
    table that was read; its [Algorithm] is a text that equals the
    target name once leading and trailing white space is removed (the
    text itself is kept as it was read); its [NumVMs], [NumHosts],
    [Landscape] and [StdDev_Host_CPU_Util(%)] are numbers; each of the 13
    numeric columns holds the coerced value of what was read, so a text
    that is no number has become missing and nothing was raised; and a
    row with such a text in a critical numeric column is not kept. *)
Theorem cleaned_rows_invariant (w : World) (f : DataFrame) :
  sla_pso_df (final to_number w) = Some f ->
  exists t0,
    read_csv w = Parsed t0
    /\ (forall i, In i (index f) ->
          In i (index t0)
          /\ (exists s, cell f "Algorithm" i = Str s
                        /\ cell (strip_columns t0) "Algorithm" i = Str s
                        /\ Text.strip s = target_algorithm)
          /\ (forall c, In c [ "NumVMs"; "NumHosts"; "Landscape";
                               "StdDev_Host_CPU_Util(%)" ] ->
                        exists q, cell f c i = Num q)
          /\ (forall c, In c numeric_cols ->
                        cell f c i
                        = coerce to_number (cell (strip_columns t0) c i)))
    /\ (forall j c s,
          In c [ "NumVMs"; "NumHosts"; "Landscape";
                 "StdDev_Host_CPU_Util(%)" ] ->
          cell (strip_columns t0) c j = Str s ->
          to_number s = None ->
          ~ In j (index f)).
Proof.
  intros Hf. destruct (reached_analysis w f Hf) as (t0 & Hread & _ & -> & _).
  exists t0. split; [exact Hread|]. split.
  - intros i Hi. destruct (sla_pso_row t0 i Hi) as (H1 & H2 & H3 & H4).
    repeat split; assumption.
  - intros j c s Hc Hcell Hnone Hj.
    destruct (sla_pso_row t0 j Hj) as (_ & _ & H3 & H4).
    destruct (H4 c Hc) as [q Hq].
    rewrite (H3 c (critical_numeric c Hc)), Hcell in Hq.
    cbn [coerce] in Hq. rewrite Hnone in Hq. discriminate Hq.
Qed.

(** C3. The filter keeps a row of the cleaned table exactly when its
    [Algorithm] is a text that equals "SLA-PSO" once leading and
    trailing white space is removed, that is, when it is "SLA-PSO"
    between two runs of white space; "SLA-PSO " and " SLA-PSO" strip to
    the same name as "SLA-PSO". *)
Theorem algorithm_filter_ignores_whitespace :
  (forall (w : World) (c f : DataFrame),
     df (final to_number w) = Some c ->
     sla_pso_df (final to_number w) = Some f ->
     forall i,
       In i (index f) <->
       In i (index c)
       /\ exists s, cell c "Algorithm" i = Str s
                    /\ Text.strip s = "SLA-PSO")
  /\ (forall s,
        Text.strip s = "SLA-PSO" <->
        exists l r,
          Text.all_space l = true /\ Text.all_space r = true
          /\ s = (l ++ "SLA-PSO" ++ r)%string)
  /\ Text.strip "SLA-PSO " = "SLA-PSO"
  /\ Text.strip " SLA-PSO" = "SLA-PSO"
  /\ Text.strip "SLA-PSO" = "SLA-PSO".
Proof.
  split; [| split; [exact TextFacts.strip_target_iff|]].
  - intros w c f Hc Hf i.
    destruct (reached_analysis w f Hf) as (t0 & _ & _ & -> & Hc' & _).
    rewrite Hc in Hc'. injection Hc' as ->.
    rewrite In_sla_pso, is_target_iff. reflexivity.
  - repeat split; vm_compute; reflexivity.
Qed.




End Runs.

(** ** The properties on concrete inputs *)

Module Instances.
Import Examples.

Ltac reach w t0 :=
  refine (proj1 (analysis_reached Decimal.to_number w t0 eq_refl _ _ _ _ _));
  vm_compute; reflexivity.

Ltac each_name Hn :=
  cbn [In numeric_cols] in Hn;
  repeat (destruct Hn as [<- | Hn]; [vm_compute; reflexivity|]);
  destruct Hn.


Lemma cleaned_rows_invariant_witness :
  sla_pso_df (final Decimal.to_number padded_names_world)
  = Some (sla_pso Decimal.to_number padded_names)
  /\ exists t0,
       read_csv padded_names_world = Parsed t0
       /\ (forall i, In i (index (sla_pso Decimal.to_number padded_names)) ->
             In i (index t0)
             /\ (exists s,
                   cell (sla_pso Decimal.to_number padded_names)
                        "Algorithm" i = Str s
                   /\ cell (strip_columns t0) "Algorithm" i = Str s
                   /\ Text.strip s = target_algorithm)
             /\ (forall c, In c [ "NumVMs"; "NumHosts"; "Landscape";
                                  "StdDev_Host_CPU_Util(%)" ] ->
                           exists q,
                             cell (sla_pso Decimal.to_number padded_names) c i
                             = Num q)
             /\ (forall c, In c numeric_cols ->
                           cell (sla_pso Decimal.to_number padded_names) c i
                           = coerce Decimal.to_number
                                    (cell (strip_columns t0) c i)))
       /\ (forall j c s,
             In c [ "NumVMs"; "NumHosts"; "Landscape";
                    "StdDev_Host_CPU_Util(%)" ] ->
             cell (strip_columns t0) c j = Str s ->
             Decimal.to_number s = None ->
             ~ In j (index (sla_pso Decimal.to_number padded_names))).
Proof.
  assert (H1 : sla_pso_df (final Decimal.to_number padded_names_world)
               = Some (sla_pso Decimal.to_number padded_names)).
  { reach padded_names_world padded_names. }
  split; [exact H1|].
  exact (cleaned_rows_invariant Decimal.to_number padded_names_world
           (sla_pso Decimal.to_number padded_names) H1).
Defined.

(** C2 as worded fails: the row read as "SLA-PSO " is kept, and its
    [Algorithm] field is still "SLA-PSO ", not the target name. *)
Lemma algorithm_field_counterexample :
  ~ (forall f i,
       sla_pso_df (final Decimal.to_number padded_names_world) = Some f ->
       In i (index f) ->
       cell f "Algorithm" i = Str target_algorithm).
Proof.
  intros H.
  assert (H1 : sla_pso_df (final Decimal.to_number padded_names_world)
               = Some (sla_pso Decimal.to_number padded_names)).
  { reach padded_names_world padded_names. }
  assert (H2 : In 1%nat (index (sla_pso Decimal.to_number padded_names))).
  { vm_compute. right. left. reflexivity. }
  specialize (H _ 1%nat H1 H2). vm_compute in H. discriminate H.
Qed.

Lemma algorithm_filter_witness :
  df (final Decimal.to_number padded_names_world)
  = Some (df_clean Decimal.to_number padded_names)
  /\ sla_pso_df (final Decimal.to_number padded_names_world)
     = Some (sla_pso Decimal.to_number padded_names)
  /\ forall i,
       In i (index (sla_pso Decimal.to_number padded_names)) <->
       In i (index (df_clean Decimal.to_number padded_names))
       /\ exists s,
            cell (df_clean Decimal.to_number padded_names) "Algorithm" i
            = Str s
            /\ Text.strip s = "SLA-PSO".
Proof.
  assert (H : sla_pso_df (final Decimal.to_number padded_names_world)
              = Some (sla_pso Decimal.to_number padded_names)
              /\ df (final Decimal.to_number padded_names_world)
                 = Some (df_clean Decimal.to_number padded_names)).
  { refine (analysis_reached Decimal.to_number padded_names_world
              padded_names eq_refl _ _ _ _ _); vm_compute; reflexivity. }
  destruct H as [H1 H2].
  split; [exact H2|]. split; [exact H1|].
  exact (proj1 (algorithm_filter_ignores_whitespace Decimal.to_number)
               padded_names_world _ _ H2 H1).
Defined.


Lemma missing_algorithm_exits_witness :
  read_csv no_algorithm_world = Parsed no_algorithm
  /\ ~ In "Algorithm" (column_names (strip_columns no_algorithm))
  /\ outcome Decimal.to_number no_algorithm_world = Exit
  /\ (exists pre,
        stdout (final Decimal.to_number no_algorithm_world)
        = pre ++ [ ErrNoAlgorithmColumn ])
  /\ df (final Decimal.to_number no_algorithm_world)
     = Some (strip_columns no_algorithm)
  /\ sla_pso_df (final Decimal.to_number no_algorithm_world) = None
  /\ vm_scaling_grouped (final Decimal.to_number no_algorithm_world) = None
  /\ host_scaling_grouped (final Decimal.to_number no_algorithm_world) = None
  /\ landscape_variation_data (final Decimal.to_number no_algorithm_world)
     = None
  /\ plot_calls (final Decimal.to_number no_algorithm_world) = []
  /\ files (final Decimal.to_number no_algorithm_world) = [].
Proof.
  assert (H2 : ~ In "Algorithm" (column_names (strip_columns no_algorithm))).
  { vm_compute. intros [H | [H | []]]; discriminate H. }
  split; [reflexivity|]. split; [exact H2|].
  exact (missing_algorithm_exits Decimal.to_number no_algorithm_world
           no_algorithm eq_refl H2).
Defined.

Lemma empty_host_slice_witness :
  sla_pso_df (final Decimal.to_number ten_vms_world)
  = Some (sla_pso Decimal.to_number ten_vms_only)
  /\ ambiguous "Landscape_Desc" (sla_pso Decimal.to_number ten_vms_only)
     = false
  /\ empty (host_scaling_data (sla_pso Decimal.to_number ten_vms_only)) = true
  /\ (forall k p,
        In (k, p) (plot_calls (final Decimal.to_number ten_vms_world)) ->
        plot_raises ten_vms_world k p = false)
  /\ outcome Decimal.to_number ten_vms_world = Ok tt
  /\ In (NoData HostScaling) (stdout (final Decimal.to_number ten_vms_world))
  /\ (forall k,
        ~ In (k, host_plot)
             (plot_calls (final Decimal.to_number ten_vms_world)))
  /\ ~ In host_plot (files (final Decimal.to_number ten_vms_world))
  /\ host_scaling_grouped (final Decimal.to_number ten_vms_world) = None
  /\ (if empty (landscape_slice (sla_pso Decimal.to_number ten_vms_only))
      then In (NoData LandscapeVariation)
              (stdout (final Decimal.to_number ten_vms_world))
      else In landscape_bar_plot
              (files (final Decimal.to_number ten_vms_world))
           /\ In landscape_curve_plot
                 (files (final Decimal.to_number ten_vms_world))
           /\ In landscape_box_plot
                 (files (final Decimal.to_number ten_vms_world)))
  /\ last (stdout (final Decimal.to_number ten_vms_world))
          UniqueAlgorithmsHeader
     = AnalysisComplete.
Proof.
  assert (H1 : sla_pso_df (final Decimal.to_number ten_vms_world)
               = Some (sla_pso Decimal.to_number ten_vms_only)).
  { reach ten_vms_world ten_vms_only. }
  assert (Ha : ambiguous "Landscape_Desc"
                         (sla_pso Decimal.to_number ten_vms_only) = false).
  { vm_compute. reflexivity. }
  assert (H2 : empty (host_scaling_data
                        (sla_pso Decimal.to_number ten_vms_only)) = true).
  { vm_compute. reflexivity. }
  assert (H3 : forall k p,
             In (k, p) (plot_calls (final Decimal.to_number ten_vms_world)) ->
             plot_raises ten_vms_world k p = false).
  { intros k p _. reflexivity. }
  split; [exact H1|]. split; [exact Ha|]. split; [exact H2|].
  split; [exact H3|].
  exact (empty_host_slice_is_skipped Decimal.to_number ten_vms_world _
           H1 Ha H2 H3).
Defined.

(** C6 as worded fails: the host-scaling slice is empty and its
    diagnostic is printed, the bar and curve charts of the landscape
    analysis are saved, and then the box plot fails: the run ends with
    that exception and never prints the completion message. *)
Lemma completion_counterexample :
  sla_pso_df (final Decimal.to_number box_chart_fails_world)
  = Some (sla_pso Decimal.to_number small_landscape_only)
  /\ empty (host_scaling_data (sla_pso Decimal.to_number small_landscape_only))
     = true
  /\ In (NoData HostScaling)
        (stdout (final Decimal.to_number box_chart_fails_world))
  /\ files (final Decimal.to_number box_chart_fails_world)
     = [ landscape_bar_plot; landscape_curve_plot ]
  /\ outcome Decimal.to_number box_chart_fails_world
     = Raise (PlotError Boxplot landscape_box_plot)
  /\ ~ In AnalysisComplete
          (stdout (final Decimal.to_number box_chart_fails_world)).
Proof.
  split; [reach box_chart_fails_world small_landscape_only|].
  split; [vm_compute; reflexivity|].
  split; [vm_compute; tauto|].
  split; [vm_compute; reflexivity|].
  split; [vm_compute; reflexivity|].
  vm_compute. intros H.
  repeat (destruct H as [H | H]; [discriminate H|]). destruct H.
Qed.



Lemma plot_failure_witness :
  In (Line, vm_plot) (plot_calls (final Decimal.to_number
                                        failing_renderer_world))
  /\ plot_raises failing_renderer_world Line vm_plot = true
  /\ outcome Decimal.to_number failing_renderer_world
     = Raise (PlotError Line vm_plot)
  /\ (exists earlier,
        plot_calls (final Decimal.to_number failing_renderer_world)
        = earlier ++ [ (Line, vm_plot) ]
        /\ Forall (fun c => plot_raises failing_renderer_world
                                        (fst c) (snd c) = false) earlier
        /\ files (final Decimal.to_number failing_renderer_world)
           = map snd earlier)
  /\ ~ In AnalysisComplete
          (stdout (final Decimal.to_number failing_renderer_world)).
Proof.
  assert (H1 : In (Line, vm_plot)
                  (plot_calls (final Decimal.to_number
                                     failing_renderer_world))).
  { vm_compute. left. reflexivity. }
  assert (H2 : plot_raises failing_renderer_world Line vm_plot = true).
  { vm_compute. reflexivity. }
  split; [exact H1|]. split; [exact H2|].
  exact (plot_failure_ends_run Decimal.to_number failing_renderer_world
           Line vm_plot H1 H2).
Defined.

(** C8 as worded fails: on the six-row table every slice has rows and
    a working renderer is called five times; when the first call fails
    it is the only call, and the host-scaling chart is never tried. *)
Lemma remaining_plots_counterexample :
  read_csv failing_renderer_world = read_csv six_rows_world
  /\ plot_calls (final Decimal.to_number six_rows_world)
     = [ (Line, vm_plot); (Line, host_plot); (Bar, landscape_bar_plot);
         (Line, landscape_curve_plot); (Boxplot, landscape_box_plot) ]
  /\ plot_raises failing_renderer_world Line vm_plot = true
  /\ plot_calls (final Decimal.to_number failing_renderer_world)
     = [ (Line, vm_plot) ]
  /\ ~ In (Line, host_plot)
          (plot_calls (final Decimal.to_number failing_renderer_world)).
Proof.
  split; [reflexivity|]. split; [vm_compute; reflexivity|].
  split; [vm_compute; reflexivity|]. split; [vm_compute; reflexivity|].
  vm_compute. intros [H | []]. discriminate H.
Qed.

Lemma missing_critical_column_witness :
  read_csv no_landscape_world = Parsed no_landscape
  /\ In "Algorithm" (column_names (strip_columns no_landscape))
  /\ (forall n, In n ("Algorithm" :: numeric_cols) ->
                ambiguous n (strip_columns no_landscape) = false)
  /\ In "Landscape" [ "NumVMs"; "NumHosts"; "Landscape";
                      "StdDev_Host_CPU_Util(%)" ]
  /\ ~ In "Landscape" (column_names (strip_columns no_landscape))
  /\ (exists missing,
        outcome Decimal.to_number no_landscape_world
        = Raise (KeyError missing)
        /\ In "Landscape" missing)
  /\ outcome Decimal.to_number no_landscape_world <> Exit
  /\ exit_status (outcome Decimal.to_number no_landscape_world) = 1%Z
  /\ (exists pre,
        stdout (final Decimal.to_number no_landscape_world)
        = pre ++ [ Values (unique (strip_columns no_landscape) "Algorithm") ])
  /\ sla_pso_df (final Decimal.to_number no_landscape_world) = None.
Proof.
  assert (H2 : In "Algorithm" (column_names (strip_columns no_landscape))).
  { vm_compute. left. reflexivity. }
  assert (H3 : In "Landscape" [ "NumVMs"; "NumHosts"; "Landscape";
                                "StdDev_Host_CPU_Util(%)" ]).
  { right. right. left. reflexivity. }
  assert (H4 : ~ In "Landscape" (column_names (strip_columns no_landscape))).
  { vm_compute. intros [H | [H | [H | [H | []]]]]; discriminate H. }
  assert (Hone : forall n, In n ("Algorithm" :: numeric_cols) ->
                   ambiguous n (strip_columns no_landscape) = false).
  { intros n Hn. each_name Hn. }
  split; [reflexivity|]. split; [exact H2|]. split; [exact Hone|].
  split; [exact H3|]. split; [exact H4|].
  exact (missing_critical_column_raises Decimal.to_number no_landscape_world
           no_landscape "Landscape" eq_refl H2 Hone H3 H4).
Defined.

(** C10 as worded fails: this table has an [Algorithm] column and no
    [Landscape], but a second header name trims to [Algorithm]; line 34
    raises an [AttributeError] right after the header line, and the run
    never gets to [dropna]: [df] is still the table as read. *)
Lemma row_dropping_counterexample :
  read_csv two_algorithm_columns_world = Parsed two_algorithm_columns
  /\ In "Algorithm" (column_names (strip_columns two_algorithm_columns))
  /\ ~ In "Landscape" (column_names (strip_columns two_algorithm_columns))
  /\ outcome Decimal.to_number two_algorithm_columns_world
     = Raise AttributeError
  /\ (forall missing,
        outcome Decimal.to_number two_algorithm_columns_world
        <> Raise (KeyError missing))
  /\ stdout (final Decimal.to_number two_algorithm_columns_world)
     = [ CreatedOutputDir OUTPUT_DIR; Loaded CSV_FILENAME;
         UniqueAlgorithmsHeader ]
  /\ df (final Decimal.to_number two_algorithm_columns_world)
     = Some (strip_columns two_algorithm_columns).
Proof.
  assert (Hrun : run Decimal.to_number two_algorithm_columns_world
                 = (Raise AttributeError,
                    mkState true
                      (loaded_trace two_algorithm_columns_world
                       ++ [ Print UniqueAlgorithmsHeader ])
                      (Some (strip_columns two_algorithm_columns))
                      None None None None)).
  { rewrite run_eq. cbn [read_csv two_algorithm_columns_world].
    replace (has_column "Algorithm" (strip_columns two_algorithm_columns))
      with true by (vm_compute; reflexivity).
    replace (ambiguous "Algorithm" (strip_columns two_algorithm_columns))
      with true by (vm_compute; reflexivity).
    reflexivity. }
  unfold outcome, final. rewrite Hrun. cbn [fst snd df].
  split; [reflexivity|]. split; [vm_compute; tauto|].
  split; [vm_compute; intros H;
          repeat (destruct H as [H | H]; [discriminate H|]); destruct H|].
  split; [reflexivity|]. split; [discriminate|].
  split; reflexivity.
Qed.

End Instances.

(** * Further properties of the script *)

Ltac observe_run :=
  cbn [fst snd out_dir trace df sla_pso_df vm_scaling_grouped
       host_scaling_grouped landscape_variation_data exit_status];
  unfold stdout, plot_calls, files, reported; cbn [trace]; flat_trace.

Ltac pick :=
  repeat first [ left; match goal with |- ?a = ?a => reflexivity end
               | right ].

Section Further.

Variable to_number : string -> option Qc.

Lemma missing_columns_none (cs : list string) (t : DataFrame) :
  (forall c, In c cs -> has_column c t = true) -> missing_columns cs t = [].
Proof.
  unfold missing_columns. induction cs as [| a cs IH]; intros H; [reflexivity|].
  cbn [filter]. rewrite (H a (or_introl eq_refl)). cbn [negb].
  apply IH. intros c Hc. apply H. now right.
Qed.

(** X1. When the file is not found, or reading it raises any other
    exception, the exception is caught: the run prints the matching
    diagnostic as its last line and stops by [exit()], with the output
    directory in place, no table assigned and no plot call made. *)
Theorem load_failure_exits (w : World) :
  read_csv w = FileNotFoundError \/ (exists e, read_csv w = ReadError e) ->
  outcome to_number w = Exit
  /\ last (stdout (final to_number w)) AnalysisComplete
     = match read_csv w with
       | ReadError e => ErrLoading e
       | _ => ErrNotFound CSV_FILENAME
       end
  /\ out_dir (final to_number w) = true
  /\ df (final to_number w) = None
  /\ sla_pso_df (final to_number w) = None
  /\ plot_calls (final to_number w) = []
  /\ files (final to_number w) = [].
Proof.
  unfold outcome, final. rewrite run_eq.
  intros [H | [e H]]; rewrite H; observe_run; unfold setup_trace;
    destruct (dir_exists w); cbn [app flat_map last];
    repeat split; reflexivity.
Qed.

(** X5. When the table has every critical column, neither [Algorithm]
    nor one of the 13 numeric names is the trimmed name of two columns
    (lines 34 and 48 raise first otherwise), and the [Algorithm] column
    is not text, the [.str] accessor of line 57 raises an
    [AttributeError] that nothing catches: the status is 1, [df] is the
    cleaned table, [sla_pso_df] is never assigned and no plot call is
    made. *)
Theorem non_text_algorithm_raises (w : World) (t0 : DataFrame) :
  read_csv w = Parsed t0 ->
  (forall c, In c critical_cols -> In c (column_names (strip_columns t0))) ->
  (forall n, In n ("Algorithm" :: numeric_cols) ->
             ambiguous n (strip_columns t0) = false) ->
  algorithm_dtype (strip_columns t0) = DNumeric ->
  outcome to_number w = Raise AttributeError
  /\ exit_status (outcome to_number w) = 1%Z
  /\ df (final to_number w) = Some (df_clean to_number t0)
  /\ sla_pso_df (final to_number w) = None
  /\ plot_calls (final to_number w) = []
  /\ files (final to_number w) = [].
Proof.
  intros Hread Hcols Hone Hdt.
  assert (Halg : has_column "Algorithm" (strip_columns t0) = true).
  { apply has_column_In, Hcols. left. reflexivity. }
  assert (Hamb : ambiguous "Algorithm" (strip_columns t0) = false).
  { apply Hone. left. reflexivity. }
  assert (Hclash : numeric_clash (strip_columns t0) = false).
  { apply clash_free. intros n Hn. apply Hone. right. exact Hn. }
  assert (Hm : missing_columns critical_cols (df_numeric to_number t0) = []).
  { apply missing_columns_none. intros c Hc. unfold df_numeric.
    rewrite has_column_coerce_fold. apply has_column_In, Hcols, Hc. }
  rewrite <- (algorithm_dtype_as_read to_number) in Hdt.
  unfold outcome, final. rewrite run_eq, Hread, Halg, Hamb, Hclash, Hm, Hdt.
  observe_run. unfold setup_trace. destruct (dir_exists w); cbn [app flat_map];
    repeat split; reflexivity.
Qed.

Ltac decide_in :=
  split;
  [ let Hin := fresh "Hin" in
    intros Hin;
    first [ reflexivity
          | cbn [In] in Hin;
            repeat (destruct Hin as [Hin | Hin]; [discriminate Hin|]);
            destruct Hin ]
  | let Heq := fresh "Heq" in
    intros Heq; first [ discriminate Heq | cbn [In]; pick ] ].

Ltac no_failure Hr :=
  try match goal with
      | R : plot_raises _ _ _ = true |- _ => rewrite Hr in R; discriminate R
      end.

(** X2. With a renderer that does not fail, a run that reaches the
    analyses (the filtered table is assigned and line 67 finds one label
    column) completes, and the files it saves are decided by the three
    slices alone: the VM-scaling line chart when its slice has a row,
    then the host-scaling line chart when its slice has a row, then the
    bar, curve and box charts of the landscape analysis when its slice
    has a row. Each saved file is reported by a line, and an analysis
    prints its no-data line exactly when its slice is empty. *)
Theorem charts_follow_slices (w : World) (f : DataFrame) :
  sla_pso_df (final to_number w) = Some f ->
  ambiguous "Landscape_Desc" f = false ->
  renderer_total w ->
  outcome to_number w = Ok tt
  /\ files (final to_number w)
     = (if empty (vm_scaling_data f) then [] else [ vm_plot ])
       ++ (if empty (host_scaling_data f) then [] else [ host_plot ])
       ++ (if empty (landscape_slice f) then []
           else [ landscape_bar_plot; landscape_curve_plot;
                  landscape_box_plot ])
  /\ reported (stdout (final to_number w)) = files (final to_number w)
  /\ (In (NoData VMScaling) (stdout (final to_number w)) <->
      empty (vm_scaling_data f) = true)
  /\ (In (NoData HostScaling) (stdout (final to_number w)) <->
      empty (host_scaling_data f) = true)
  /\ (In (NoData LandscapeVariation) (stdout (final to_number w)) <->
      empty (landscape_slice f) = true).
Proof.
  unfold outcome, final.
  run_paths to_number w; observe_run; intros Hf Ha Hr;
    try discriminate Hf; injection Hf as <-;
    try (rewrite Ha in Hld; discriminate Hld); no_failure Hr;
    rewrite ?Evm, ?Ehost, ?Elsc; unfold setup_trace; destruct (dir_exists w);
    cbn [app flat_map];
    (split; [reflexivity|]); (split; [reflexivity|]);
    (split; [reflexivity|]);
    (split; [decide_in|]); (split; [decide_in | decide_in]).
Qed.

Lemma empty_index (t : DataFrame) : empty t = true <-> index t = [].
Proof.
  unfold empty. destruct (index t); split; congruence.
Qed.

Lemma not_empty_index (t : DataFrame) : empty t = false <-> index t <> [].
Proof.
  unfold empty. destruct (index t); split; congruence.
Qed.

Lemma empty_slice_of_empty (f : DataFrame) a p b q :
  index f = [] -> empty (slice_rows f a p b q) = true.
Proof.
  intros H. unfold empty, slice_rows. rewrite index_select, H. reflexivity.
Qed.

(** X3. When no row is left after cleaning and filtering (and line 67
    finds one label column), every analysis finds its slice empty: the
    run completes whatever the renderer would do, makes no plot call,
    saves no file, builds no aggregate, leaves the empty landscape slice
    in [landscape_variation_data], and its last four lines are the
    three no-data lines and the completion line. *)
Theorem nothing_left_to_plot (w : World) (f : DataFrame) :
  sla_pso_df (final to_number w) = Some f ->
  ambiguous "Landscape_Desc" f = false ->
  index f = [] ->
  outcome to_number w = Ok tt
  /\ plot_calls (final to_number w) = []
  /\ files (final to_number w) = []
  /\ vm_scaling_grouped (final to_number w) = None
  /\ host_scaling_grouped (final to_number w) = None
  /\ landscape_variation_data (final to_number w) = Some (landscape_slice f)
  /\ index (landscape_slice f) = []
  /\ exists pre,
       stdout (final to_number w)
       = pre ++ [ NoData VMScaling; NoData HostScaling;
                  NoData LandscapeVariation; AnalysisComplete ].
Proof.
  unfold outcome, final.
  run_paths to_number w; observe_run; intros Hf Ha Hi;
    try discriminate Hf; injection Hf as <-;
    try (rewrite Ha in Hld; discriminate Hld);
    try (unfold vm_scaling_data in Evm;
         rewrite (empty_slice_of_empty _ _ _ _ _ Hi) in Evm;
         discriminate Evm);
    try (unfold host_scaling_data in Ehost;
         rewrite (empty_slice_of_empty _ _ _ _ _ Hi) in Ehost;
         discriminate Ehost);
    try (unfold landscape_slice in Elsc;
         rewrite (empty_slice_of_empty _ _ _ _ _ Hi) in Elsc;
         discriminate Elsc);
    unfold setup_trace; destruct (dir_exists w); cbn [app flat_map];
    repeat (split; [reflexivity|]);
    (split; [apply empty_index; exact Elsc|]);
    match goal with
    | |- exists pre, ?l = _ => exists (firstn (List.length l - 4) l)
    end;
    cbn [List.length Nat.sub firstn app]; reflexivity.
Qed.

Lemma distinctb_sound (l : list string) : distinctb l = true -> NoDup l.
Proof.
  induction l as [| a r IH]; cbn [distinctb]; intros H; [constructor|].
  apply andb_prop in H as [Ha Hr]. constructor; [| exact (IH Hr)].
  intros Hin. apply negb_true_iff in Ha.
  assert (E : existsb (String.eqb a) r = true).
  { apply existsb_exists. exists a. split; [exact Hin|].
    apply String.eqb_refl. }
  congruence.
Qed.

Lemma chart_files_in_output_dir :
  Forall (fun p => String.prefix (OUTPUT_DIR ++ "/") p = true) chart_files.
Proof. repeat constructor. Qed.

(** X4. What a run writes, whatever the input and the renderer: the
    files it saves are among the five chart files, lie in the output
    directory, are pairwise different (no chart overwrites another) and
    are each reported by a line, in the order saved; they are the files
    of the plot calls made, except for a last call that failed. *)
Theorem run_saves_charts_only (w : World) :
  NoDup (files (final to_number w))
  /\ (forall p, In p (files (final to_number w)) ->
                In p chart_files
                /\ String.prefix (OUTPUT_DIR ++ "/") p = true)
  /\ reported (stdout (final to_number w)) = files (final to_number w)
  /\ (files (final to_number w)
      = map snd (plot_calls (final to_number w))
      \/ files (final to_number w)
         = map snd (removelast (plot_calls (final to_number w)))).
Proof.
  pose proof chart_files_in_output_dir as Hdir.
  rewrite Forall_forall in Hdir.
  assert (Hmem : forall l,
             (forall p, In p l -> In p chart_files) ->
             forall p, In p l ->
                       In p chart_files
                       /\ String.prefix (OUTPUT_DIR ++ "/") p = true).
  { intros l Hl p Hp. split; [auto | apply Hdir; auto]. }
  unfold final.
  run_paths to_number w; observe_run; unfold setup_trace;
    destruct (dir_exists w); cbn [app flat_map removelast map snd];
    (split; [apply distinctb_sound; vm_compute; reflexivity|]);
    (split;
     [apply Hmem; intros p Hp; unfold chart_files; cbn [In] in Hp |- *;
      repeat (destruct Hp as [<- | Hp]; [pick|]); destruct Hp|]);
    (split; [reflexivity|]);
    first [left; reflexivity | right; reflexivity].
Qed.

Lemma filter_filter {A : Type} (p q : A -> bool) (l : list A) :
  filter q (filter p l) = filter (fun x => p x && q x) l.
Proof.
  induction l as [| a l IH]; cbn [filter]; [reflexivity|].
  destruct (p a); cbn [filter andb]; [| exact IH].
  destruct (q a); [f_equal|]; exact IH.
Qed.

Lemma is_target_text (c : Cell) : is_target c = true -> is_nan c = false.
Proof. destruct c; cbn [is_target is_nan]; congruence. Qed.

(** The cells [dropna] looks at, in terms of the table as read. *)
Lemma critical_cells t0 i :
  forallb (fun c => negb (is_nan (cell (df_numeric to_number t0) c i)))
          critical_cols
  = negb (is_nan (cell (strip_columns t0) "Algorithm" i))
    && forallb
         (fun c => negb (is_nan (coerce to_number
                                        (cell (strip_columns t0) c i))))
         [ "NumVMs"; "NumHosts"; "Landscape"; "StdDev_Host_CPU_Util(%)" ].
Proof.
  unfold critical_cols. cbn [forallb]. rewrite !cell_df_numeric.
  replace (existsb (String.eqb "Algorithm") numeric_cols) with false
    by (vm_compute; reflexivity).
  replace (existsb (String.eqb "NumVMs") numeric_cols) with true
    by (vm_compute; reflexivity).
  replace (existsb (String.eqb "NumHosts") numeric_cols) with true
    by (vm_compute; reflexivity).
  replace (existsb (String.eqb "Landscape") numeric_cols) with true
    by (vm_compute; reflexivity).
  replace (existsb (String.eqb "StdDev_Host_CPU_Util(%)") numeric_cols)
    with true by (vm_compute; reflexivity).
  reflexivity.
Qed.

(** X6. The rows of [sla_pso_df] in closed form: [dropna] and the
    algorithm filter together keep, in the order read, exactly the rows
    whose [Algorithm] is a text
    that strips to the target name and whose [NumVMs], [NumHosts],
    [Landscape] and [StdDev_Host_CPU_Util(%)] are numbers or convert to
    numbers; a missing or unconvertible value in any other column does
    not drop the row. *)
Theorem kept_rows (w : World) (f : DataFrame) :
  sla_pso_df (final to_number w) = Some f ->
  exists t0,
    read_csv w = Parsed t0
    /\ index f
       = filter
           (fun i =>
              is_target (cell (strip_columns t0) "Algorithm" i)
              && forallb
                   (fun c => negb (is_nan (coerce to_number
                                             (cell (strip_columns t0) c i))))
                   [ "NumVMs"; "NumHosts"; "Landscape";
                     "StdDev_Host_CPU_Util(%)" ])
           (index t0).
Proof.
  intros Hf. destruct (reached_analysis to_number w f Hf)
    as (t0 & Hread & _ & -> & _).
  exists t0. split; [exact Hread|].
  unfold sla_pso, with_landscape_desc. rewrite index_set_column.
  unfold algorithm_rows. rewrite index_select.
  unfold df_clean at 2. unfold dropna_rows. rewrite index_select.
  rewrite index_df_numeric, filter_filter. apply filter_ext. intros i.
  rewrite critical_cells, cell_df_clean, cell_df_numeric.
  replace (existsb (String.eqb "Algorithm") numeric_cols) with false
    by (vm_compute; reflexivity).
  destruct (is_target (cell (strip_columns t0) "Algorithm" i)) eqn:E.
  - rewrite (is_target_text _ E). cbn [negb andb].
    now rewrite andb_true_r.
  - now rewrite andb_false_r.
Qed.

(** X7. Cleaning touches nothing but the 13 numeric columns and
    [Landscape_Desc]: in [sla_pso_df] every other cell is the cell that
    was read, every cell of a numeric column is the coerced value of the
    cell that was read and is never text, and the columns are those
    read (names trimmed) and [Landscape_Desc]. *)
Theorem cleaning_frame (w : World) (f : DataFrame) :
  sla_pso_df (final to_number w) = Some f ->
  exists t0,
    read_csv w = Parsed t0
    /\ (forall c i, ~ In c numeric_cols -> c <> "Landscape_Desc" ->
                    cell f c i = cell (strip_columns t0) c i)
    /\ (forall c i, In c numeric_cols ->
                    cell f c i
                    = coerce to_number (cell (strip_columns t0) c i)
                    /\ forall s, cell f c i <> Str s)
    /\ (forall c, In c (column_names f) <->
                  c = "Landscape_Desc"
                  \/ In c (column_names (strip_columns t0))).
Proof.
  intros Hf. destruct (reached_analysis to_number w f Hf)
    as (t0 & Hread & _ & -> & _).
  exists t0. split; [exact Hread|]. split; [| split].
  - intros c i Hnum Hdesc. rewrite cell_sla_pso.
    apply String.eqb_neq in Hdesc. rewrite Hdesc, cell_df_numeric.
    destruct (existsb (String.eqb c) numeric_cols) eqn:E; [|reflexivity].
    apply existsb_exists in E as (x & Hx & Hcx).
    apply String.eqb_eq in Hcx. subst x. contradiction.
  - intros c i Hnum. destruct (numeric_col_facts c Hnum) as [He Hd].
    rewrite cell_sla_pso, Hd, cell_df_numeric, He.
    split; [reflexivity|]. intros s.
    destruct (coerce_not_text to_number (cell (strip_columns t0) c i))
      as [-> | [q ->]]; discriminate.
  - intros c. rewrite <- !has_column_In, has_column_sla_pso.
    unfold df_numeric. rewrite has_column_coerce_fold.
    rewrite orb_true_iff, String.eqb_eq. reflexivity.
Qed.

(** *** The aggregates *)

Lemma In_slice_rows (f : DataFrame) a p b q i :
  In i (index (slice_rows f a p b q)) <->
  In i (index f) /\ cell f a i = Num p /\ cell f b i = Num q.
Proof.
  unfold slice_rows. rewrite index_select, filter_In, andb_true_iff.
  rewrite !cell_is_Num. reflexivity.
Qed.

(** The aggregate of a slice, read on the table the slice is cut from. *)
Lemma slice_groupby_spec (f : DataFrame) a p b q (key val : string) :
  (forall i, In i (index f) -> exists v, cell f val i = Num v) ->
  StronglySorted Qclt (map fst (groupby_mean (slice_rows f a p b q) key val))
  /\ NoDup (map fst (groupby_mean (slice_rows f a p b q) key val))
  /\ (forall k,
        In k (map fst (groupby_mean (slice_rows f a p b q) key val)) <->
        exists i, In i (index (slice_rows f a p b q))
                  /\ cell f key i = Num k)
  /\ (forall k m,
        In (k, m) (groupby_mean (slice_rows f a p b q) key val) ->
        exists vs,
          vs <> []
          /\ Forall2 (fun i v => cell f val i = Num v)
                     (filter (fun i => cell_is k (cell f key i))
                             (index (slice_rows f a p b q)))
                     vs
          /\ m = Num (Qc_mean vs)).
Proof.
  intros Hnum.
  assert (Hnum' : forall i, In i (index (slice_rows f a p b q)) ->
                    exists v, cell (slice_rows f a p b q) val i = Num v).
  { intros i Hi. apply In_slice_rows in Hi as [Hi _]. exact (Hnum i Hi). }
  pose proof (groupby_mean_spec (slice_rows f a p b q) key val Hnum')
    as Hspec.
  change (cell (slice_rows f a p b q)) with (cell f) in Hspec.
  exact Hspec.
Qed.

Lemma sla_pso_values t0 :
  forall i, In i (index (sla_pso to_number t0)) ->
            exists v, cell (sla_pso to_number t0)
                           "StdDev_Host_CPU_Util(%)" i = Num v.
Proof.
  intros i Hi. destruct (sla_pso_row to_number t0 i Hi) as (_ & _ & _ & H4).
  apply H4. cbn [In]. pick.
Qed.

(** What the later analyses leave in the state. *)
Lemma later_state (w : World) (f : DataFrame) :
  sla_pso_df (final to_number w) = Some f ->
  host_scaling_grouped (final to_number w)
  = (if ambiguous "Landscape_Desc" f then None
     else if negb (empty (vm_scaling_data f)) && plot_raises w Line vm_plot
     then None
     else if empty (host_scaling_data f) then None
          else Some (groupby_mean (host_scaling_data f) "NumHosts"
                                  "StdDev_Host_CPU_Util(%)"))
  /\ landscape_variation_data (final to_number w)
     = (if ambiguous "Landscape_Desc" f then None
        else if (negb (empty (vm_scaling_data f))
                 && plot_raises w Line vm_plot)
                || (negb (empty (host_scaling_data f))
                    && plot_raises w Line host_plot)
        then None
        else if empty (landscape_slice f) then Some (landscape_slice f)
             else Some (with_categories (landscape_slice f))).
Proof.
  unfold final.
  run_paths to_number w;
    cbn [snd sla_pso_df host_scaling_grouped landscape_variation_data];
    intros H; try discriminate H; injection H as <-;
    rewrite Hld, ?Evm, ?Rvm, ?Ehost, ?Rhost, ?Elsc; split; reflexivity.
Qed.

(** X8. The VM-scaling aggregate on any filtered table: its slice is
    the rows with five hosts and landscape 4; no aggregate is built when
    the slice is empty or the run has stopped at line 67 because two
    columns carry the label name, and otherwise the aggregate has one
    row per distinct [NumVMs] value of the slice, ascending, each with
    the arithmetic mean of [StdDev_Host_CPU_Util(%)] over the rows of
    the slice with that value. Rows outside the slice play no part. *)
Theorem vm_scaling_slice_aggregate (w : World) (f : DataFrame) :
  sla_pso_df (final to_number w) = Some f ->
  (forall i, In i (index (vm_scaling_data f)) <->
             In i (index f) /\ cell f "NumHosts" i = Num (num 5)
             /\ cell f "Landscape" i = Num (num 4))
  /\ match vm_scaling_grouped (final to_number w) with
     | None =>
         index (vm_scaling_data f) = []
         \/ ambiguous "Landscape_Desc" f = true
     | Some g =>
         index (vm_scaling_data f) <> []
         /\ StronglySorted Qclt (map fst g)
         /\ NoDup (map fst g)
         /\ (forall k, In k (map fst g) <->
                       exists i, In i (index (vm_scaling_data f))
                                 /\ cell f "NumVMs" i = Num k)
         /\ (forall k m, In (k, m) g ->
               exists vs,
                 vs <> []
                 /\ Forall2
                      (fun i v => cell f "StdDev_Host_CPU_Util(%)" i = Num v)
                      (filter (fun i => cell_is k (cell f "NumVMs" i))
                              (index (vm_scaling_data f)))
                      vs
                 /\ m = Num (Qc_mean vs))
     end.
Proof.
  intros Hf.
  destruct (reached_analysis to_number w f Hf) as (t0 & _ & _ & Heq & _ & Hg).
  split; [intros i; apply In_slice_rows|].
  rewrite Hg. destruct (ambiguous "Landscape_Desc" f); [right; reflexivity|].
  destruct (empty (vm_scaling_data f)) eqn:E.
  - left. now apply empty_index.
  - split; [now apply not_empty_index|].
    apply slice_groupby_spec. rewrite Heq. apply sla_pso_values.
Qed.

(** X9. The host-scaling aggregate: its slice is the rows with thirty
    virtual machines and landscape 4. When the aggregate is built it has
    one row per distinct [NumHosts] value of the slice, ascending, with
    the arithmetic mean of [StdDev_Host_CPU_Util(%)] over the rows of
    the slice with that value; it is not built only when the slice is
    empty, when the VM-scaling chart failed before, or when the run has
    stopped at line 67 because two columns carry the label name. *)
Theorem host_scaling_aggregate (w : World) (f : DataFrame) :
  sla_pso_df (final to_number w) = Some f ->
  (forall i, In i (index (host_scaling_data f)) <->
             In i (index f) /\ cell f "NumVMs" i = Num (num 30)
             /\ cell f "Landscape" i = Num (num 4))
  /\ match host_scaling_grouped (final to_number w) with
     | None =>
         index (host_scaling_data f) = []
         \/ (index (vm_scaling_data f) <> []
             /\ plot_raises w Line vm_plot = true)
         \/ ambiguous "Landscape_Desc" f = true
     | Some g =>
         index (host_scaling_data f) <> []
         /\ StronglySorted Qclt (map fst g)
         /\ NoDup (map fst g)
         /\ (forall k, In k (map fst g) <->
                       exists i, In i (index (host_scaling_data f))
                                 /\ cell f "NumHosts" i = Num k)
         /\ (forall k m, In (k, m) g ->
               exists vs,
                 vs <> []
                 /\ Forall2
                      (fun i v => cell f "StdDev_Host_CPU_Util(%)" i = Num v)
                      (filter (fun i => cell_is k (cell f "NumHosts" i))
                              (index (host_scaling_data f)))
                      vs
                 /\ m = Num (Qc_mean vs))
     end.
Proof.
  intros Hf.
  destruct (reached_analysis to_number w f Hf) as (t0 & _ & _ & Heq & _).
  destruct (later_state w f Hf) as [Hh _].
  split; [intros i; apply In_slice_rows|].
  rewrite Hh.
  destruct (ambiguous "Landscape_Desc" f); [right; right; reflexivity|].
  destruct (empty (vm_scaling_data f)) eqn:Ev; cbn [negb andb].
  - destruct (empty (host_scaling_data f)) eqn:E.
    + left. now apply empty_index.
    + split; [now apply not_empty_index|].
      apply slice_groupby_spec. rewrite Heq. apply sla_pso_values.
  - destruct (plot_raises w Line vm_plot) eqn:R.
    + right. left. split; [now apply not_empty_index | reflexivity].
    + destruct (empty (host_scaling_data f)) eqn:E.
      * left. now apply empty_index.
      * split; [now apply not_empty_index|].
        apply slice_groupby_spec. rewrite Heq. apply sla_pso_values.
Qed.

(** *** The landscape analysis *)

Lemma Cell_eqb_refl (c : Cell) : Cell_eqb c c = true.
Proof.
  destruct c as [| s | q]; cbn [Cell_eqb];
    [reflexivity | apply String.eqb_refl | apply Qc_eqb_refl].
Qed.

Lemma existsb_Cell (c : Cell) (l : list Cell) :
  existsb (Cell_eqb c) l = true <-> In c l.
Proof.
  rewrite existsb_exists. split.
  - intros (x & Hx & E). apply Cell_eqb_eq in E. now subst.
  - intros H. exists c. split; [exact H | apply Cell_eqb_refl].
Qed.

Lemma In_dedup (c : Cell) (l : list Cell) : In c (dedup l) <-> In c l.
Proof.
  induction l as [| a r IH]; cbn [dedup In]; [reflexivity|].
  rewrite filter_In, IH, negb_true_iff. split.
  - intros [H | [H _]]; auto.
  - intros [H | H]; [now left|].
    destruct (Cell_eqb a c) eqn:E.
    + left. now apply Cell_eqb_eq.
    + right. auto.
Qed.

Lemma In_landscape_categories (t : DataFrame) (l : string) :
  In l (landscape_categories t) <->
  In l landscape_order
  /\ exists i, In i (index t) /\ cell t "Landscape_Desc" i = Str l.
Proof.
  unfold landscape_categories, unique.
  rewrite filter_In, existsb_Cell, In_dedup, in_map_iff.
  split; intros [H (i & H1 & H2)]; (split; [exact H|]); exists i; auto.
Qed.

Lemma landscape_desc_cases (c : Cell) :
  exists l, landscape_desc c = Str l
            /\ (l = "Unknown" \/ In l landscape_order).
Proof.
  destruct c as [| s | q]; cbn [landscape_desc];
    [exists "Unknown"; auto | exists "Unknown"; auto |].
  unfold landscape_map, landscape_order.
  destruct (Qc_eqb q (num 1));
    [eexists; split; [reflexivity | right; cbn [In]; pick]|].
  destruct (Qc_eqb q (num 2));
    [eexists; split; [reflexivity | right; cbn [In]; pick]|].
  destruct (Qc_eqb q (num 3));
    [eexists; split; [reflexivity | right; cbn [In]; pick]|].
  destruct (Qc_eqb q (num 4));
    [eexists; split; [reflexivity | right; cbn [In]; pick]|].
  exists "Unknown". auto.
Qed.

Lemma unknown_is_no_category : ~ In "Unknown" landscape_order.
Proof.
  unfold landscape_order. cbn [In].
  intros [H | [H | [H | [H | []]]]]; discriminate H.
Qed.

Lemma sla_pso_labels t0 i :
  exists l, cell (sla_pso to_number t0) "Landscape_Desc" i = Str l
            /\ (l = "Unknown" \/ In l landscape_order).
Proof.
  rewrite cell_sla_pso.
  replace (String.eqb "Landscape_Desc" "Landscape_Desc") with true
    by (vm_compute; reflexivity).
  apply landscape_desc_cases.
Qed.

(** The label column after line 163, on a table whose labels are
    texts. *)
Lemma categorical_label (s : DataFrame) (i : nat) (l : string) :
  In i (index s) ->
  cell s "Landscape_Desc" i = Str l ->
  cell (with_categories s) "Landscape_Desc" i
  = if existsb (String.eqb l) landscape_order then Str l else NaN.
Proof.
  intros Hi Hl. unfold with_categories. rewrite cell_set_column.
  replace (String.eqb "Landscape_Desc" "Landscape_Desc") with true
    by (vm_compute; reflexivity).
  cbn [values]. rewrite Hl. cbn [categorical].
  destruct (existsb (String.eqb l) landscape_order) eqn:E.
  - assert (Hin : In l (landscape_categories s)).
    { apply In_landscape_categories. split; [| eauto].
      apply existsb_exists in E as (x & Hx & Hlx).
      apply String.eqb_eq in Hlx. now subst. }
    assert (E' : existsb (String.eqb l) (landscape_categories s) = true).
    { apply existsb_exists. exists l. split; [exact Hin|].
      apply String.eqb_refl. }
    now rewrite E'.
  - destruct (existsb (String.eqb l) (landscape_categories s)) eqn:E';
      [|reflexivity].
    apply existsb_exists in E' as (x & Hx & Hlx).
    apply String.eqb_eq in Hlx. subst x.
    apply In_landscape_categories in Hx as [Hx _].
    assert (E'' : existsb (String.eqb l) landscape_order = true).
    { apply existsb_exists. exists l. split; [exact Hx|].
      apply String.eqb_refl. }
    congruence.
Qed.

Lemma cell_with_categories_other (s : DataFrame) (c : string) (i : nat) :
  c <> "Landscape_Desc" -> cell (with_categories s) c i = cell s c i.
Proof.
  intros H. unfold with_categories. rewrite cell_set_column.
  apply String.eqb_neq in H. now rewrite H.
Qed.

(** X10. The table of the landscape analysis, once line 158 has
    assigned it: its rows are the rows with thirty virtual machines and
    five hosts (there may be none); a row of unknown landscape loses its
    label (the label is missing in the categorical column, so the charts
    leave the row out), a row of a known landscape keeps it, and every
    other column is untouched. *)
Theorem landscape_table (w : World) (f d : DataFrame) :
  sla_pso_df (final to_number w) = Some f ->
  landscape_variation_data (final to_number w) = Some d ->
  (forall i, In i (index d) <->
             In i (index f) /\ cell f "NumVMs" i = Num (num 30)
             /\ cell f "NumHosts" i = Num (num 5))
  /\ (forall i, In i (index d) ->
        (cell f "Landscape_Desc" i = Str "Unknown" ->
         cell d "Landscape_Desc" i = NaN)
        /\ (cell f "Landscape_Desc" i <> Str "Unknown" ->
            cell d "Landscape_Desc" i = cell f "Landscape_Desc" i))
  /\ (forall c i, c <> "Landscape_Desc" -> cell d c i = cell f c i).
Proof.
  intros Hf Hd.
  destruct (reached_analysis to_number w f Hf) as (t0 & _ & _ & Heq & _).
  destruct (later_state w f Hf) as [_ Hl]. rewrite Hd in Hl.
  destruct (ambiguous "Landscape_Desc" f); [discriminate Hl|].
  destruct ((negb (empty (vm_scaling_data f)) && plot_raises w Line vm_plot)
            || (negb (empty (host_scaling_data f))
                && plot_raises w Line host_plot)); [discriminate Hl|].
  destruct (empty (landscape_slice f)) eqn:E; injection Hl as ->.
  { apply empty_index in E.
    split; [intros i; apply In_slice_rows|]. split.
    - intros i Hi. rewrite E in Hi. destruct Hi.
    - intros c i Hc. reflexivity. }
  assert (Hlab : forall i, exists l,
             cell f "Landscape_Desc" i = Str l
             /\ (l = "Unknown" \/ In l landscape_order)).
  { intros i. rewrite Heq. apply sla_pso_labels. }
  clear Heq Hf Hd.
  split; [intros i; apply In_slice_rows|]. split.
  - intros i Hi. destruct (Hlab i) as (l & Hl & Hcase).
    pose proof (categorical_label (landscape_slice f) i l Hi Hl) as Hc.
    rewrite Hl. split.
    + intros Hu. injection Hu as ->. rewrite Hc.
      destruct (existsb (String.eqb "Unknown") landscape_order) eqn:Ex;
        [|reflexivity].
      exfalso. apply unknown_is_no_category.
      apply existsb_exists in Ex as (x & Hx & Hlx).
      apply String.eqb_eq in Hlx. now subst.
    + intros Hu. destruct Hcase as [-> | Hin]; [congruence|].
      rewrite Hc.
      assert (Ex : existsb (String.eqb l) landscape_order = true).
      { apply existsb_exists. exists l. split; [exact Hin|].
        apply String.eqb_refl. }
      now rewrite Ex.
  - intros c i Hc. now rewrite cell_with_categories_other.
Qed.

Lemma values_rows (t : DataFrame) (val : string) (rows : list nat) :
  (forall i, In i rows -> exists v, cell t val i = Num v) ->
  Forall2 (fun i v => cell t val i = Num v) rows
          (flat_map (fun i => match cell t val i with
                              | Num v => [v]
                              | _ => []
                              end) rows).
Proof.
  induction rows as [| i r IH]; intros H; cbn [flat_map]; [constructor|].
  destruct (H i (or_introl eq_refl)) as [v Hv]. rewrite Hv. cbn [app].
  constructor; [exact Hv|]. apply IH. intros j Hj. apply H. now right.
Qed.

Lemma Cell_eqb_Str (c : Cell) (l : string) :
  Cell_eqb c (Str l) = true <-> c = Str l.
Proof.
  split; [apply Cell_eqb_eq | intros ->; apply Cell_eqb_refl].
Qed.

(** The rows of one category, before and after line 163. *)
Lemma category_rows (s : DataFrame) (l : string) :
  (forall i, exists l', cell s "Landscape_Desc" i = Str l') ->
  In l landscape_order ->
  filter (fun i => Cell_eqb (cell (with_categories s) "Landscape_Desc" i)
                            (Str l))
         (index s)
  = filter (fun i => Cell_eqb (cell s "Landscape_Desc" i) (Str l)) (index s).
Proof.
  intros Hlab Hl. apply filter_ext_in. intros i Hi. destruct (Hlab i) as [l' Hl'].
  rewrite (categorical_label s i l' Hi Hl'), Hl'.
  destruct (existsb (String.eqb l') landscape_order) eqn:E; [reflexivity|].
  cbn [Cell_eqb]. destruct (String.eqb l' l) eqn:E'; [|reflexivity].
  apply String.eqb_eq in E'. subst l'.
  assert (Ex : existsb (String.eqb l) landscape_order = true).
  { apply existsb_exists. exists l. split; [exact Hl|].
    apply String.eqb_refl. }
  congruence.
Qed.

(** The points of the curve on a table whose labels are texts and
    whose values are numbers. *)
Lemma curve_data_spec (s : DataFrame) :
  (forall i, exists l', cell s "Landscape_Desc" i = Str l') ->
  (forall i, In i (index s) ->
             exists v, cell s "StdDev_Host_CPU_Util(%)" i = Num v) ->
  map fst (landscape_curve_data s)
  = filter (fun l => existsb (fun i => Cell_eqb (cell s "Landscape_Desc" i)
                                               (Str l))
                             (index s))
           landscape_order
  /\ (forall l m, In (l, m) (landscape_curve_data s) ->
        exists vs,
          vs <> []
          /\ Forall2 (fun i v => cell s "StdDev_Host_CPU_Util(%)" i = Num v)
                     (filter (fun i => Cell_eqb (cell s "Landscape_Desc" i)
                                                (Str l))
                             (index s))
                     vs
          /\ m = Num (Qc_mean vs)).
Proof.
  intros Hlab Hnum. split.
  - unfold landscape_curve_data. cbv zeta. rewrite map_map. cbn [fst].
    rewrite map_id. unfold landscape_categories, unique.
    apply filter_ext. intros l. apply eq_true_iff_eq.
    rewrite existsb_Cell, In_dedup, in_map_iff, existsb_exists.
    split; intros (i & H1 & H2); exists i.
    + split; [exact H2|]. now apply Cell_eqb_Str.
    + split; [| exact H1]. now apply Cell_eqb_Str.
  - intros l m Hin. unfold landscape_curve_data in Hin. cbv zeta in Hin.
    apply in_map_iff in Hin as (l' & Heq & Hl). injection Heq as -> <-.
    apply In_landscape_categories in Hl as (Hord & i & Hi & Hli).
    rewrite (category_rows s l Hlab Hord).
    rewrite (flat_map_ext
               (fun i => match cell (with_categories s)
                                    "StdDev_Host_CPU_Util(%)" i with
                         | Num v => [v]
                         | _ => []
                         end)
               (fun i => match cell s "StdDev_Host_CPU_Util(%)" i with
                         | Num v => [v]
                         | _ => []
                         end))
      by (intros j; rewrite cell_with_categories_other;
          [reflexivity | discriminate]).
    set (rows := filter (fun i => Cell_eqb (cell s "Landscape_Desc" i)
                                           (Str l)) (index s)).
    assert (Hrows : forall j, In j rows ->
              exists v, cell s "StdDev_Host_CPU_Util(%)" j = Num v).
    { intros j Hj. apply filter_In in Hj as [Hj _]. exact (Hnum j Hj). }
    pose proof (values_rows s "StdDev_Host_CPU_Util(%)" rows Hrows) as HF.
    assert (Hne : flat_map (fun i => match cell s "StdDev_Host_CPU_Util(%)" i
                                     with
                                     | Num v => [v]
                                     | _ => []
                                     end) rows <> []).
    { intros E. rewrite E in HF. inversion HF as [Hnil |].
      assert (Hin : In i rows).
      { apply filter_In. split; [exact Hi|]. now apply Cell_eqb_Str. }
      rewrite <- Hnil in Hin. destruct Hin. }
    match type of HF with Forall2 _ _ ?v => exists v end.
    split; [exact Hne|]. split; [exact HF|].
    unfold mean_cell.
    destruct (flat_map _ rows) eqn:E; [congruence | reflexivity].
Qed.

(** X11. The points of the landscape curve (line 176), computed from
    the rows with thirty virtual machines and five hosts: one point per
    landscape label that occurs among them, in the order Homogeneous
    Small, Medium, Large, Heterogeneous, each with the arithmetic mean
    of [StdDev_Host_CPU_Util(%)] over the rows with that label; rows of
    unknown landscape give no point. *)
Theorem landscape_curve_points (w : World) (f : DataFrame) :
  sla_pso_df (final to_number w) = Some f ->
  map fst (landscape_curve_data (landscape_slice f))
  = filter (fun l => existsb (fun i => Cell_eqb (cell f "Landscape_Desc" i)
                                               (Str l))
                             (index (landscape_slice f)))
           landscape_order
  /\ (forall l m, In (l, m) (landscape_curve_data (landscape_slice f)) ->
        exists vs,
          vs <> []
          /\ Forall2 (fun i v => cell f "StdDev_Host_CPU_Util(%)" i = Num v)
                     (filter (fun i => Cell_eqb (cell f "Landscape_Desc" i)
                                                (Str l))
                             (index (landscape_slice f)))
                     vs
          /\ m = Num (Qc_mean vs))
  /\ ~ In "Unknown" (map fst (landscape_curve_data (landscape_slice f))).
Proof.
  intros Hf.
  destruct (reached_analysis to_number w f Hf) as (t0 & _ & _ & Heq & _).
  assert (Hlab : forall i, exists l,
             cell (landscape_slice f) "Landscape_Desc" i = Str l).
  { intros i. change (cell (landscape_slice f)) with (cell f).
    rewrite Heq. destruct (sla_pso_labels t0 i) as (l & Hl & _).
    exists l. exact Hl. }
  assert (Hnum : forall i, In i (index (landscape_slice f)) ->
             exists v,
               cell (landscape_slice f) "StdDev_Host_CPU_Util(%)" i = Num v).
  { intros i Hi. apply In_slice_rows in Hi as [Hi _].
    change (cell (landscape_slice f)) with (cell f).
    rewrite Heq in Hi |- *. exact (sla_pso_values t0 i Hi). }
  clear Heq Hf.
  destruct (curve_data_spec (landscape_slice f) Hlab Hnum) as [H1 H2].
  change (cell (landscape_slice f)) with (cell f) in H1, H2.
  split; [exact H1|]. split; [exact H2|].
  rewrite H1. intros Hin. apply filter_In in Hin as [Hin _].
  exact (unknown_is_no_category Hin).
Qed.

(** *** File names and header names *)

Lemma occurs_app (c : ascii) (a b : string) :
  occurs c (a ++ b)%string = occurs c a || occurs c b.
Proof.
  induction a as [| x a IH]; cbn [append occurs]; [reflexivity|].
  now rewrite IH, orb_assoc.
Qed.

Lemma occurs_replace (d c : ascii) (rep s : string) :
  occurs d rep = false ->
  occurs d (Text.replace c rep s)
  = if Ascii.eqb d c then false else occurs d s.
Proof.
  intros Hrep. induction s as [| a r IH]; cbn [Text.replace occurs].
  - now destruct (Ascii.eqb d c).
  - destruct (Ascii.eqb c a) eqn:Eca.
    + apply Ascii.eqb_eq in Eca. subst a.
      rewrite occurs_app, Hrep, IH. cbn [orb].
      now destruct (Ascii.eqb d c).
    + cbn [occurs]. rewrite IH.
      destruct (Ascii.eqb d c) eqn:Edc; [|reflexivity].
      apply Ascii.eqb_eq in Edc. subst d. rewrite Eca. reflexivity.
Qed.

Lemma replace_absent (c : ascii) (rep s : string) :
  occurs c s = false -> Text.replace c rep s = s.
Proof.
  induction s as [| a r IH]; cbn [Text.replace occurs]; [reflexivity|].
  intros H. apply orb_false_elim in H as [Ha Hr].
  rewrite Ha. f_equal. exact (IH Hr).
Qed.

(** X12. The name of a chart file, for any y-axis name and prefix: the
    part derived from the y-axis name holds no parenthesis and no
    percent sign, and a y-axis name without them is used as it is. The
    path is the output directory, a separator and the file name when the
    prefix does not start with the separator; a prefix that does is an
    absolute path, which [os.path.join] returns without the output
    directory. *)
Theorem chart_file_names (k : PlotKind) (y_axis filename_prefix : string) :
  occurs "(" (sanitize y_axis) = false
  /\ occurs ")" (sanitize y_axis) = false
  /\ occurs "%" (sanitize y_axis) = false
  /\ (occurs "(" y_axis = false -> occurs ")" y_axis = false ->
      occurs "%" y_axis = false -> sanitize y_axis = y_axis)
  /\ plot_path k y_axis filename_prefix
     = ((if String.prefix "/" filename_prefix then ""
         else OUTPUT_DIR ++ "/")
        ++ filename_prefix ++ "_" ++ sanitize y_axis ++ "_" ++ kind_suffix k
        ++ ".png")%string.
Proof.
  unfold sanitize. repeat split.
  - rewrite !occurs_replace by reflexivity. reflexivity.
  - rewrite !occurs_replace by reflexivity. reflexivity.
  - rewrite !occurs_replace by reflexivity. reflexivity.
  - intros H1 H2 H3.
    rewrite (replace_absent "(" "" y_axis H1).
    rewrite (replace_absent ")" "" y_axis H2).
    exact (replace_absent "%" "pct" y_axis H3).
  - unfold plot_path, path_join.
    destruct filename_prefix as [| c r]; [reflexivity|].
    cbn [append String.prefix].
    destruct (ascii_dec "/" c) as [E | N].
    + destruct r; reflexivity.
    + reflexivity.
Qed.

Lemma analyse_renderer (w1 w2 : World) (s : State) :
  plot_raises w1 = plot_raises w2 -> analyse w1 s = analyse w2 s.
Proof.
  intros H.
  unfold analyse, vm_scaling, host_scaling, landscape_variation,
    plot_line_single, plot_bar_single, plot_boxplot_single, render.
  rewrite H. reflexivity.
Qed.

(** X13. The run depends on the header only through the trimmed
    column names: two tables that are equal once their column names are
    trimmed give, with the same output directory and renderer, the same
    outcome, the same effects and the same final tables. *)
Theorem header_whitespace_is_ignored (w : World) (t t' : DataFrame) :
  read_csv w = Parsed t ->
  strip_columns t' = strip_columns t ->
  run to_number (mkWorld (dir_exists w) (Parsed t') (plot_raises w))
  = run to_number w.
Proof.
  intros Hread Hs.
  assert (Hn : df_numeric to_number t' = df_numeric to_number t).
  { unfold df_numeric. now rewrite Hs. }
  assert (Hc : df_clean to_number t' = df_clean to_number t).
  { unfold df_clean. now rewrite Hn. }
  assert (Hf : sla_pso to_number t' = sla_pso to_number t).
  { unfold sla_pso. now rewrite Hc. }
  assert (Hp : df_stopped to_number t' = df_stopped to_number t).
  { unfold df_stopped. now rewrite Hs. }
  rewrite !run_eq. cbn [read_csv]. rewrite Hread.
  unfold analysis_start, checked_trace, loaded_trace, setup_trace.
  cbn [dir_exists]. rewrite Hs, Hn, Hc, Hf, Hp.
  destruct (has_column "Algorithm" (strip_columns t)); [|reflexivity].
  destruct (ambiguous "Algorithm" (strip_columns t)); [reflexivity|].
  destruct (numeric_clash (strip_columns t)); [reflexivity|].
  destruct (missing_columns critical_cols (df_numeric to_number t));
    [|reflexivity].
  destruct (algorithm_dtype (df_clean to_number t)); [|reflexivity].
  destruct (ambiguous "Landscape_Desc" (sla_pso to_number t));
    [reflexivity|].
  apply analyse_renderer. reflexivity.
Qed.

(** X14. Header names that trim to the same name. After line 29 two
    such columns carry one name, and [df[name]] is a DataFrame. For
    [Algorithm], line 34 raises an [AttributeError] right after the
    header line, with [df] as read. For one of the 13 numeric names,
    line 48 raises a [TypeError] after the list of algorithm names;
    [df] holds the conversions made so far and nothing is filtered. For
    [Landscape_Desc], the run gets past the filter of line 57 and ends
    with an exception before line 124 (line 67 asks a DataFrame for
    [unique]): [sla_pso_df] is assigned, no analysis runs and no plot
    call is made. *)
Theorem header_name_clash_raises (w : World) (t0 : DataFrame) :
  read_csv w = Parsed t0 ->
  (ambiguous "Algorithm" (strip_columns t0) = true ->
   outcome to_number w = Raise AttributeError
   /\ last (stdout (final to_number w)) AnalysisComplete
      = UniqueAlgorithmsHeader
   /\ df (final to_number w) = Some (strip_columns t0)
   /\ sla_pso_df (final to_number w) = None)
  /\ (In "Algorithm" (column_names (strip_columns t0)) ->
      ambiguous "Algorithm" (strip_columns t0) = false ->
      (exists c, In c numeric_cols /\ ambiguous c (strip_columns t0) = true) ->
      outcome to_number w = Raise TypeError
      /\ last (stdout (final to_number w)) AnalysisComplete
         = Values (unique (strip_columns t0) "Algorithm")
      /\ df (final to_number w) = Some (df_stopped to_number t0)
      /\ sla_pso_df (final to_number w) = None)
  /\ (forall f,
        sla_pso_df (final to_number w) = Some f ->
        ambiguous "Landscape_Desc" f = true ->
        (exists e, outcome to_number w = Raise e)
        /\ vm_scaling_grouped (final to_number w) = None
        /\ host_scaling_grouped (final to_number w) = None
        /\ landscape_variation_data (final to_number w) = None
        /\ plot_calls (final to_number w) = []).
Proof.
  intros Hread. unfold outcome, final. split; [| split].
  - intros Hamb. rewrite run_eq, Hread, (ambiguous_present _ _ Hamb), Hamb.
    observe_run. unfold setup_trace.
    destruct (dir_exists w); cbn [app flat_map last]; repeat split.
  - intros Halg Hamb (c & Hc & Hcc). apply has_column_In in Halg.
    assert (Hclash : numeric_clash (strip_columns t0) = true).
    { destruct (numeric_clash (strip_columns t0)) eqn:E; [reflexivity|].
      rewrite (proj1 (clash_free _) E c Hc) in Hcc. discriminate Hcc. }
    rewrite run_eq, Hread, Halg, Hamb, Hclash.
    observe_run. unfold setup_trace.
    destruct (dir_exists w); cbn [app flat_map last]; repeat split.
  - intros f. clear Hread.
    run_paths to_number w; observe_run; unfold setup_trace;
      destruct (dir_exists w); cbn [app flat_map last]; intros Hf Ha;
      try discriminate Hf; injection Hf as <-;
      try (rewrite Ha in Hld; discriminate Hld);
      (split; [eexists; reflexivity|]); repeat split.
Qed.

End Further.

(** ** The further properties on concrete inputs *)

Module MoreInstances.
Import Examples MoreExamples.

Ltac reached w t0 :=
  refine (proj1 (analysis_reached Decimal.to_number w t0 eq_refl _ _ _ _ _));
  vm_compute; reflexivity.

Ltac every_name Hn :=
  cbn [In numeric_cols] in Hn;
  repeat (destruct Hn as [<- | Hn]; [vm_compute; reflexivity|]);
  destruct Hn.

Lemma load_failure_witness :
  (read_csv unreadable_world = FileNotFoundError
   \/ exists e, read_csv unreadable_world = ReadError e)
  /\ outcome Decimal.to_number unreadable_world = Exit
  /\ last (stdout (final Decimal.to_number unreadable_world)) AnalysisComplete
     = ErrLoading "Error tokenizing data".
Proof.
  assert (H : read_csv unreadable_world = FileNotFoundError
              \/ exists e, read_csv unreadable_world = ReadError e).
  { right. eexists. reflexivity. }
  split; [exact H|].
  pose proof (load_failure_exits Decimal.to_number unreadable_world H)
    as (H1 & H2 & _).
  split; [exact H1 | exact H2].
Defined.

Lemma charts_follow_slices_witness :
  sla_pso_df (final Decimal.to_number ten_vms_world)
  = Some (sla_pso Decimal.to_number ten_vms_only)
  /\ ambiguous "Landscape_Desc" (sla_pso Decimal.to_number ten_vms_only)
     = false
  /\ renderer_total ten_vms_world
  /\ outcome Decimal.to_number ten_vms_world = Ok tt
  /\ files (final Decimal.to_number ten_vms_world)
     = (if empty (vm_scaling_data (sla_pso Decimal.to_number ten_vms_only))
        then [] else [ vm_plot ])
       ++ (if empty (host_scaling_data
                       (sla_pso Decimal.to_number ten_vms_only))
           then [] else [ host_plot ])
       ++ (if empty (landscape_slice (sla_pso Decimal.to_number ten_vms_only))
           then []
           else [ landscape_bar_plot; landscape_curve_plot;
                  landscape_box_plot ]).
Proof.
  assert (H1 : sla_pso_df (final Decimal.to_number ten_vms_world)
               = Some (sla_pso Decimal.to_number ten_vms_only)).
  { reached ten_vms_world ten_vms_only. }
  assert (Ha : ambiguous "Landscape_Desc"
                         (sla_pso Decimal.to_number ten_vms_only) = false).
  { vm_compute. reflexivity. }
  assert (H2 : renderer_total ten_vms_world).
  { intros k p. reflexivity. }
  split; [exact H1|]. split; [exact Ha|]. split; [exact H2|].
  pose proof (charts_follow_slices Decimal.to_number ten_vms_world _ H1 Ha
                H2) as (H3 & H4 & _).
  split; [exact H3 | exact H4].
Defined.

Lemma nothing_left_witness :
  sla_pso_df (final Decimal.to_number other_algorithms_world)
  = Some (sla_pso Decimal.to_number other_algorithms)
  /\ ambiguous "Landscape_Desc" (sla_pso Decimal.to_number other_algorithms)
     = false
  /\ index (sla_pso Decimal.to_number other_algorithms) = []
  /\ outcome Decimal.to_number other_algorithms_world = Ok tt
  /\ plot_calls (final Decimal.to_number other_algorithms_world) = []
  /\ files (final Decimal.to_number other_algorithms_world) = [].
Proof.
  assert (H1 : sla_pso_df (final Decimal.to_number other_algorithms_world)
               = Some (sla_pso Decimal.to_number other_algorithms)).
  { reached other_algorithms_world other_algorithms. }
  assert (Ha : ambiguous "Landscape_Desc"
                         (sla_pso Decimal.to_number other_algorithms)
               = false).
  { vm_compute. reflexivity. }
  assert (H2 : index (sla_pso Decimal.to_number other_algorithms) = []).
  { vm_compute. reflexivity. }
  split; [exact H1|]. split; [exact Ha|]. split; [exact H2|].
  pose proof (nothing_left_to_plot Decimal.to_number other_algorithms_world
                _ H1 Ha H2) as (H3 & H4 & H5 & _).
  split; [exact H3|]. split; [exact H4 | exact H5].
Defined.

Lemma non_text_algorithm_witness :
  read_csv numbered_algorithms_world = Parsed numbered_algorithms
  /\ (forall c, In c critical_cols ->
                In c (column_names (strip_columns numbered_algorithms)))
  /\ (forall n, In n ("Algorithm" :: numeric_cols) ->
                ambiguous n (strip_columns numbered_algorithms) = false)
  /\ algorithm_dtype (strip_columns numbered_algorithms) = DNumeric
  /\ outcome Decimal.to_number numbered_algorithms_world
     = Raise AttributeError
  /\ exit_status (outcome Decimal.to_number numbered_algorithms_world) = 1%Z.
Proof.
  assert (H2 : forall c, In c critical_cols ->
                 In c (column_names (strip_columns numbered_algorithms))).
  { intros c Hc. unfold critical_cols in Hc. cbn [In] in Hc.
    destruct Hc as [<- | [<- | [<- | [<- | [<- | []]]]]];
      vm_compute; pick. }
  assert (H3 : algorithm_dtype (strip_columns numbered_algorithms)
               = DNumeric).
  { vm_compute. reflexivity. }
  assert (Hone : forall n, In n ("Algorithm" :: numeric_cols) ->
                   ambiguous n (strip_columns numbered_algorithms) = false).
  { intros n Hn. every_name Hn. }
  split; [reflexivity|]. split; [exact H2|]. split; [exact Hone|].
  split; [exact H3|].
  pose proof (non_text_algorithm_raises Decimal.to_number
                numbered_algorithms_world numbered_algorithms eq_refl H2
                Hone H3)
    as (H4 & H5 & _).
  split; [exact H4 | exact H5].
Defined.

Lemma kept_rows_witness :
  sla_pso_df (final Decimal.to_number padded_names_world)
  = Some (sla_pso Decimal.to_number padded_names)
  /\ exists t0,
       read_csv padded_names_world = Parsed t0
       /\ index (sla_pso Decimal.to_number padded_names)
          = filter
              (fun i =>
                 is_target (cell (strip_columns t0) "Algorithm" i)
                 && forallb
                      (fun c =>
                         negb (is_nan (coerce Decimal.to_number
                                         (cell (strip_columns t0) c i))))
                      [ "NumVMs"; "NumHosts"; "Landscape";
                        "StdDev_Host_CPU_Util(%)" ])
              (index t0).
Proof.
  assert (H1 : sla_pso_df (final Decimal.to_number padded_names_world)
               = Some (sla_pso Decimal.to_number padded_names)).
  { reached padded_names_world padded_names. }
  split; [exact H1|].
  exact (kept_rows Decimal.to_number padded_names_world _ H1).
Defined.

Lemma cleaning_frame_witness :
  sla_pso_df (final Decimal.to_number padded_names_world)
  = Some (sla_pso Decimal.to_number padded_names)
  /\ exists t0,
       read_csv padded_names_world = Parsed t0
       /\ forall c i, ~ In c numeric_cols -> c <> "Landscape_Desc" ->
                      cell (sla_pso Decimal.to_number padded_names) c i
                      = cell (strip_columns t0) c i.
Proof.
  assert (H1 : sla_pso_df (final Decimal.to_number padded_names_world)
               = Some (sla_pso Decimal.to_number padded_names)).
  { reached padded_names_world padded_names. }
  split; [exact H1|].
  destruct (cleaning_frame Decimal.to_number padded_names_world _ H1)
    as (t0 & H2 & H3 & _).
  exists t0. split; [exact H2 | exact H3].
Defined.

Lemma vm_scaling_slice_witness :
  sla_pso_df (final Decimal.to_number padded_names_world)
  = Some (sla_pso Decimal.to_number padded_names)
  /\ forall i,
       In i (index (vm_scaling_data (sla_pso Decimal.to_number padded_names)))
       <->
       In i (index (sla_pso Decimal.to_number padded_names))
       /\ cell (sla_pso Decimal.to_number padded_names) "NumHosts" i
          = Num (num 5)
       /\ cell (sla_pso Decimal.to_number padded_names) "Landscape" i
          = Num (num 4).
Proof.
  assert (H1 : sla_pso_df (final Decimal.to_number padded_names_world)
               = Some (sla_pso Decimal.to_number padded_names)).
  { reached padded_names_world padded_names. }
  split; [exact H1|].
  pose proof (vm_scaling_slice_aggregate Decimal.to_number
                padded_names_world _ H1) as H.
  destruct H as [H _]. exact H.
Defined.

Lemma host_scaling_witness :
  sla_pso_df (final Decimal.to_number six_rows_world)
  = Some (sla_pso Decimal.to_number six_rows)
  /\ forall i,
       In i (index (host_scaling_data (sla_pso Decimal.to_number six_rows)))
       <->
       In i (index (sla_pso Decimal.to_number six_rows))
       /\ cell (sla_pso Decimal.to_number six_rows) "NumVMs" i
          = Num (num 30)
       /\ cell (sla_pso Decimal.to_number six_rows) "Landscape" i
          = Num (num 4).
Proof.
  assert (H1 : sla_pso_df (final Decimal.to_number six_rows_world)
               = Some (sla_pso Decimal.to_number six_rows)).
  { reached six_rows_world six_rows. }
  split; [exact H1|].
  pose proof (host_scaling_aggregate Decimal.to_number six_rows_world _
                H1) as H.
  destruct H as [H _]. exact H.
Defined.

Lemma landscape_table_witness :
  sla_pso_df (final Decimal.to_number padded_names_world)
  = Some (sla_pso Decimal.to_number padded_names)
  /\ landscape_variation_data (final Decimal.to_number padded_names_world)
     = Some (with_categories
               (landscape_slice (sla_pso Decimal.to_number padded_names)))
  /\ forall c i,
       c <> "Landscape_Desc" ->
       cell (with_categories
               (landscape_slice (sla_pso Decimal.to_number padded_names)))
            c i
       = cell (sla_pso Decimal.to_number padded_names) c i.
Proof.
  assert (H1 : sla_pso_df (final Decimal.to_number padded_names_world)
               = Some (sla_pso Decimal.to_number padded_names)).
  { reached padded_names_world padded_names. }
  assert (H2 : landscape_variation_data
                 (final Decimal.to_number padded_names_world)
               = Some (with_categories
                         (landscape_slice
                            (sla_pso Decimal.to_number padded_names)))).
  { rewrite (proj2 (later_state Decimal.to_number padded_names_world _ H1)).
    replace (ambiguous "Landscape_Desc"
                       (sla_pso Decimal.to_number padded_names))
      with false by (vm_compute; reflexivity).
    replace (empty (vm_scaling_data (sla_pso Decimal.to_number padded_names)))
      with false by (vm_compute; reflexivity).
    replace (empty (host_scaling_data
                      (sla_pso Decimal.to_number padded_names)))
      with false by (vm_compute; reflexivity).
    replace (empty (landscape_slice (sla_pso Decimal.to_number padded_names)))
      with false by (vm_compute; reflexivity).
    reflexivity. }
  split; [exact H1|]. split; [exact H2|].
  pose proof (landscape_table Decimal.to_number padded_names_world _ _
                H1 H2) as H.
  destruct H as (_ & _ & H). exact H.
Defined.

Lemma landscape_curve_witness :
  sla_pso_df (final Decimal.to_number padded_names_world)
  = Some (sla_pso Decimal.to_number padded_names)
  /\ ~ In "Unknown"
          (map fst (landscape_curve_data
                      (landscape_slice
                         (sla_pso Decimal.to_number padded_names)))).
Proof.
  assert (H1 : sla_pso_df (final Decimal.to_number padded_names_world)
               = Some (sla_pso Decimal.to_number padded_names)).
  { reached padded_names_world padded_names. }
  split; [exact H1|].
  pose proof (landscape_curve_points Decimal.to_number
                padded_names_world _ H1) as H.
  destruct H as (_ & _ & H). exact H.
Defined.

Lemma chart_file_names_witness :
  occurs "(" "Avg_StdDev_Host_CPU_Util_Pct" = false
  /\ occurs ")" "Avg_StdDev_Host_CPU_Util_Pct" = false
  /\ occurs "%" "Avg_StdDev_Host_CPU_Util_Pct" = false
  /\ sanitize "Avg_StdDev_Host_CPU_Util_Pct" = "Avg_StdDev_Host_CPU_Util_Pct".
Proof.
  assert (H1 : occurs "(" "Avg_StdDev_Host_CPU_Util_Pct" = false)
    by (vm_compute; reflexivity).
  assert (H2 : occurs ")" "Avg_StdDev_Host_CPU_Util_Pct" = false)
    by (vm_compute; reflexivity).
  assert (H3 : occurs "%" "Avg_StdDev_Host_CPU_Util_Pct" = false)
    by (vm_compute; reflexivity).
  split; [exact H1|]. split; [exact H2|]. split; [exact H3|].
  destruct (chart_file_names Line "Avg_StdDev_Host_CPU_Util_Pct" "")
    as (_ & _ & _ & H & _).
  exact (H H1 H2 H3).
Defined.

Lemma header_whitespace_witness :
  read_csv padded_names_world = Parsed padded_names
  /\ strip_columns trimmed_names = strip_columns padded_names
  /\ run Decimal.to_number
         (mkWorld (dir_exists padded_names_world) (Parsed trimmed_names)
                  (plot_raises padded_names_world))
     = run Decimal.to_number padded_names_world.
Proof.
  assert (H2 : strip_columns trimmed_names = strip_columns padded_names).
  { vm_compute. reflexivity. }
  split; [reflexivity|]. split; [exact H2|].
  exact (header_whitespace_is_ignored Decimal.to_number padded_names_world
           padded_names trimmed_names eq_refl H2).
Defined.

Lemma header_name_clash_witness :
  read_csv two_host_columns_world = Parsed two_host_columns
  /\ In "Algorithm" (column_names (strip_columns two_host_columns))
  /\ ambiguous "Algorithm" (strip_columns two_host_columns) = false
  /\ (exists c, In c numeric_cols
                /\ ambiguous c (strip_columns two_host_columns) = true)
  /\ outcome Decimal.to_number two_host_columns_world = Raise TypeError
  /\ last (stdout (final Decimal.to_number two_host_columns_world))
          AnalysisComplete
     = Values (unique (strip_columns two_host_columns) "Algorithm")
  /\ df (final Decimal.to_number two_host_columns_world)
     = Some (df_stopped Decimal.to_number two_host_columns)
  /\ sla_pso_df (final Decimal.to_number two_host_columns_world) = None
  /\ read_csv two_label_columns_world = Parsed two_label_columns
  /\ sla_pso_df (final Decimal.to_number two_label_columns_world)
     = Some (sla_pso Decimal.to_number two_label_columns)
  /\ ambiguous "Landscape_Desc" (sla_pso Decimal.to_number two_label_columns)
     = true
  /\ (exists e, outcome Decimal.to_number two_label_columns_world = Raise e)
  /\ plot_calls (final Decimal.to_number two_label_columns_world) = [].
Proof.
  assert (H2 : In "Algorithm"
                  (column_names (strip_columns two_host_columns))).
  { vm_compute. left. reflexivity. }
  assert (H3 : ambiguous "Algorithm" (strip_columns two_host_columns)
               = false).
  { vm_compute. reflexivity. }
  assert (H4 : exists c, In c numeric_cols
                         /\ ambiguous c (strip_columns two_host_columns)
                            = true).
  { exists "NumHosts". split; [vm_compute; tauto | vm_compute; reflexivity]. }
  assert (H5 : sla_pso_df (final Decimal.to_number two_label_columns_world)
               = Some (sla_pso Decimal.to_number two_label_columns)).
  { reached two_label_columns_world two_label_columns. }
  assert (H6 : ambiguous "Landscape_Desc"
                         (sla_pso Decimal.to_number two_label_columns)
               = true).
  { vm_compute. reflexivity. }
  split; [reflexivity|]. split; [exact H2|]. split; [exact H3|].
  split; [exact H4|].
  pose proof (proj1 (proj2 (header_name_clash_raises Decimal.to_number
                              two_host_columns_world two_host_columns
                              eq_refl))
                    H2 H3 H4) as (R1 & R2 & R3 & R4).
  split; [exact R1|]. split; [exact R2|]. split; [exact R3|].
  split; [exact R4|].
  pose proof (proj2 (proj2 (header_name_clash_raises Decimal.to_number
                              two_label_columns_world two_label_columns
                              eq_refl))
                    _ H5 H6) as (S1 & _ & _ & _ & S5).
  split; [reflexivity|]. split; [exact H5|]. split; [exact H6|].
  split; [exact S1 | exact S5].
Defined.

End MoreInstances.
